(** * server.js: accounts, session tokens and bookings

    A shallow embedding of the Express application in [server.js]:
    the five JSON routes, the [authenticateToken] middleware, and the
    parts of its three libraries (mongoose, bcryptjs, jsonwebtoken)
    that the routes rely on.

    Conventions.
    - The database is a pair of collections, each a list of documents
      in insertion order.
    - A request body is a JSON object whose fields are strings; a field
      that is not there reads as [None] (JavaScript [undefined]). A
      body that [express.json()] refuses never reaches a route.
    - A handler is a function from the database, the request and what
      the handler draws from its environment (the clock, a random salt,
      a new ObjectId) to the new database and the response.
    - An exception inside a handler's [try] is a [Throw]; the [catch]
      turns it into the 500 response.
    - The cryptographic cores (the Blowfish key schedule of bcrypt, the
      HMAC and the compact serialisation of a token) and the signing
      secret of the environment are parameters, bundled in
      [Platform]. *)

From Stdlib Require Import List String Ascii Arith ZArith NArith Bool Lia.
From Stdlib Require Import Sorted Permutation.
Import ListNotations.
Local Open Scope string_scope.

Set Implicit Arguments.

(** ** JavaScript helpers *)

Module JS.

(** [s.split(sep)] for a one-character separator: the pieces between
    the separators, so that a string without the separator is its own
    single piece and [""] splits into [[""]]. *)
Fixpoint split (sep : ascii) (s : string) : list string :=
  match s with
  | EmptyString => [EmptyString]
  | String c rest =>
      if Ascii.eqb c sep then EmptyString :: split sep rest
      else match split sep rest with
           | [] => [String c EmptyString]
           | piece :: pieces => String c piece :: pieces
           end
  end.

(** Whether a character occurs in a string. *)
Fixpoint mem (c : ascii) (s : string) : bool :=
  match s with
  | EmptyString => false
  | String d rest => Ascii.eqb d c || mem c rest
  end.

(** An object with string fields, read by name: [obj.field]. *)
Definition object := list (string * string).

Fixpoint field (name : string) (obj : object) : option string :=
  match obj with
  | [] => None
  | (k, v) :: rest => if String.eqb k name then Some v else field name rest
  end.

(** Exceptions: a computation returns a value or throws. *)
Inductive result (E A : Type) : Type :=
| Ok (a : A)
| Throw (e : E).
Arguments Ok {E A} a.
Arguments Throw {E A} e.

Definition bind {E A B} (m : result E A) (k : A -> result E B) : result E B :=
  match m with
  | Ok a => k a
  | Throw e => Throw e
  end.

End JS.

Notation "x <- m ;; k" := (JS.bind m (fun x => k))
  (at level 61, m at next level, right associativity).

Definition space : ascii := " "%char.

(** ** bcryptjs *)

Module Bcrypt.

(** The bytes of the password that reach the Blowfish key schedule.
    [_hash] appends a NUL to the password, and the key schedule reads
    18 words of 4 bytes from it, starting again at the first byte when
    it runs off the end ([_streamtoword]): 72 bytes in all, whatever
    the length of the password. *)
Definition key (s : string) : list ascii :=
  let data := (list_ascii_of_string s ++ [zero])%list in
  map (fun i => List.nth (i mod List.length data) data zero) (seq 0 72).

(** A hash as [bcrypt.hash] returns it, ["$2a$10$" + salt + digest],
    kept as its two variable parts. *)
Record Hash : Type := { salt : string; digest : string }.

Definition Hash_eqb (h1 h2 : Hash) : bool :=
  String.eqb (salt h1) (salt h2) && String.eqb (digest h1) (digest h2).

Section Core.

(** The expensive key schedule and encryption at cost 10: from the 72
    key bytes and the salt to the digest. *)
Variable eksblowfish : list ascii -> string -> string.

(** [bcrypt.hash(s, 10)]: [genSalt(10)] draws the salt, here [fresh],
    then [_hash(s, salt)]. A password that is not a string is refused
    with [Error("Illegal arguments: ...")]. *)
Definition hash (s : option string) (fresh : string) : JS.result string Hash :=
  match s with
  | None => JS.Throw "Illegal arguments: undefined, number"
  | Some s => JS.Ok {| salt := fresh; digest := eksblowfish (key s) fresh |}
  end.

(** [bcrypt.compare(s, hash)]: hashes [s] under the salt of [hash] and
    compares the two strings. *)
Definition compare (s : option string) (h : Hash) : JS.result string bool :=
  match s with
  | None => JS.Throw "Illegal arguments: undefined, string"
  | Some s =>
      JS.Ok (Hash_eqb {| salt := salt h; digest := eksblowfish (key s) (salt h) |} h)
  end.

End Core.

End Bcrypt.

(** ** jsonwebtoken *)

Module Jwt.

(** The claims of a token of this server: the three identity fields
    that [/signin] signs, and the two dates that [jwt.sign] adds, in
    seconds since the epoch. *)
Record Payload : Type := {
  userId : N;
  email : string;
  accountName : string;
  iat : Z;
  exp : Z
}.

Inductive VerifyError : Type :=
| JwtMustBeProvided
| JwtMalformed
| SecretMustBeProvided
| InvalidSignature
| TokenExpired.

Section Core.

(** HMAC-SHA256 of the claims under a secret, and the compact
    serialisation [header.payload.signature] with its parser. *)
Variable hs256 : string -> Payload -> string.
Variable serialize : Payload -> string -> string.
Variable parse : string -> option (Payload * string).

(** [jwt.sign({userId, email, accountName}, secret, {expiresIn: '1h'})]
    at clock [now] (milliseconds, as [Date.now()]). A secret that is
    empty or not there is refused ([!secretOrPrivateKey]) with
    [Error('secretOrPrivateKey must have a value')]. *)
Definition sign (uid : N) (mail name : string) (secret : string) (now : Z)
  : JS.result string string :=
  match secret with
  | EmptyString => JS.Throw "secretOrPrivateKey must have a value"
  | _ =>
      let timestamp := (now / 1000)%Z in
      let payload := {| userId := uid; email := mail; accountName := name;
                        iat := timestamp; exp := (timestamp + 3600)%Z |} in
      JS.Ok (serialize payload (hs256 secret payload))
  end.

(** [jwt.verify(token, secret, callback)] at clock [now]: an empty
    token is refused at once; otherwise the token is decoded, a secret
    that is empty or not there is refused ([!secretOrPublicKey]), then
    the signature is checked, then the expiry. The callback's
    [(err, user)] is the result. *)
Definition verify (token secret : string) (now : Z) : JS.result VerifyError Payload :=
  match token with
  | EmptyString => JS.Throw JwtMustBeProvided
  | _ =>
      match parse token with
      | None => JS.Throw JwtMalformed
      | Some (payload, signature) =>
          match secret with
          | EmptyString => JS.Throw SecretMustBeProvided
          | _ =>
              if String.eqb signature (hs256 secret payload) then
                let clockTimestamp := (now / 1000)%Z in
                if (exp payload <=? clockTimestamp)%Z then JS.Throw TokenExpired
                else JS.Ok payload
              else JS.Throw InvalidSignature
          end
      end
  end.

End Core.

End Jwt.

(** ** mongoose: the two models *)

(** The [required] validator of a String path: the value is there and
    is not the empty string. *)
Definition required (path : string) (v : option string) : JS.result string string :=
  match v with
  | Some (String c s) => JS.Ok (String c s)
  | _ => JS.Throw ("ValidationError: Path `" ++ path ++ "` is required.")
  end.

Module User.

(** A stored document of [userSchema]; [password] holds the hash. *)
Record t : Type := {
  _id : N;
  accountName : string;
  email : string;
  password : Bcrypt.Hash
}.

(** [User.findOne({ email })]: the first document, in the order of the
    collection, whose [email] is the given string. An [undefined] value
    is sent to the database as [null], which matches the documents
    without an [email]; the schema requires the path, so there are
    none. *)
Definition findOne (filter : option string) (users : list t) : option t :=
  match filter with
  | None => None
  | Some mail => List.find (fun u => String.eqb (email u) mail) users
  end.

(** [User.create({accountName, email, password})] with the ObjectId
    [oid] that the driver gives the document: the required paths are
    validated, the unique index on [email] refuses a second document
    with the same value, and the document is added to the collection. *)
Definition create (users : list t) (oid : N)
    (name mail : option string) (hashedPassword : Bcrypt.Hash)
  : JS.result string (t * list t) :=
  name <- required "accountName" name ;;
  mail <- required "email" mail ;;
  if List.existsb (fun u => String.eqb (email u) mail) users
  then JS.Throw "MongoServerError: E11000 duplicate key error"
  else
    let doc := {| _id := oid; accountName := name; email := mail;
                  password := hashedPassword |} in
    JS.Ok (doc, (users ++ [doc])%list).

End User.

Module Booking.

(** A stored document of [bookingSchema]. *)
Record t : Type := {
  _id : N;
  date : string;
  time : string;
  service : string;
  userId : N
}.

(** [Booking.create({date, time, service, userId})]. *)
Definition create (bookings : list t) (oid : N)
    (d tm sv : option string) (owner : N)
  : JS.result string (t * list t) :=
  d <- required "date" d ;;
  tm <- required "time" tm ;;
  sv <- required "service" sv ;;
  let doc := {| _id := oid; date := d; time := tm; service := sv;
                userId := owner |} in
  JS.Ok (doc, (bookings ++ [doc])%list).

(** [Booking.find({ userId })]: the documents of that owner, in the
    order of the collection. *)
Definition find (owner : N) (bookings : list t) : list t :=
  List.filter (fun b => N.eqb (userId b) owner) bookings.

(** The order of [.sort({ date: 1, time: 1 })]: ascending [date], and
    ascending [time] among equal dates, strings compared byte by
    byte. *)
Definition leb (a b : t) : bool :=
  match String.compare (date a) (date b) with
  | Lt => true
  | Eq => String.leb (time a) (time b)
  | Gt => false
  end.

Fixpoint insert (b : t) (sorted : list t) : list t :=
  match sorted with
  | [] => [b]
  | c :: rest => if leb b c then b :: c :: rest else c :: insert b rest
  end.

(** [.sort({ date: 1, time: 1 })], as an insertion sort that keeps
    documents with equal keys in the order of the collection. *)
Fixpoint sort (bookings : list t) : list t :=
  match bookings with
  | [] => []
  | b :: rest => insert b (sort rest)
  end.

End Booking.

(** The database: the two collections. *)
Record DB : Type := {
  users : list User.t;
  bookings : list Booking.t
}.

Definition empty_db : DB := {| users := []; bookings := [] |}.

(** ** The application *)

(** The JSON bodies that the routes send. [ErrorPage] is not JSON: it
    is the page of Express's own error handler, whose text is left
    out. *)
Inductive Json : Type :=
| Message (message : string)
| AccountCreated (message : string) (userId : N)
| SignedIn (message : string) (token : string)
| AccountName (accountName : string)
| BookingCreated (message : string) (booking : Booking.t)
| Bookings (bookings : list Booking.t)
| ErrorPage.

Record Response : Type := { status : nat; json : Json }.

(** [res.status(code).json(body)], and [res.json(body)] with the
    default status. *)
Definition respond (code : nat) (body : Json) : Response :=
  {| status := code; json := body |}.

Definition ok (body : Json) : Response := respond 200 body.

Definition internal_error : Response :=
  respond 500 (Message "Internal server error.").

(** The two refusals of [authenticateToken]. *)
Definition unauthorized : Response :=
  respond 401 (Message "Authentication token required.").

Definition forbidden : Response :=
  respond 403 (Message "Invalid or expired token.").

(** [try { ... } catch (error) { res.status(500)... }]: nothing is
    written to the database before a call throws, so the database of
    the [catch] branch is the one the handler started with. *)
Definition try_catch (db : DB) (attempt : JS.result string (DB * Response))
  : DB * Response :=
  match attempt with
  | JS.Ok r => r
  | JS.Throw _ => (db, internal_error)
  end.

(** What the process is given: the cryptographic cores of its
    libraries and its configuration.
    - [eksblowfish]: the key schedule and encryption of bcrypt at cost
      10, from the 72 key bytes and the salt to the digest;
    - [hs256]: the HMAC-SHA256 of the claims under a secret;
    - [serialize], [parse]: the compact form of a signed token and its
      decoder;
    - [JWT_SECRET]: [process.env.JWT_SECRET], read without a check
      (line 15); the empty string stands for a variable that is empty
      or not set, which [jwt.sign] and [jwt.verify], its only readers,
      refuse alike. *)
Class Platform : Type := {
  eksblowfish : list ascii -> string -> string;
  hs256 : string -> Jwt.Payload -> string;
  serialize : Jwt.Payload -> string -> string;
  parse : string -> option (Jwt.Payload * string);
  JWT_SECRET : string
}.

Section App.

Context {P : Platform}.

(** [POST /signup]; [salt] and [oid] are the salt that [bcrypt.hash]
    draws and the ObjectId of the new document. *)
Definition signup (db : DB) (body : JS.object) (salt : string) (oid : N)
  : DB * Response :=
  try_catch db (
    let accountName := JS.field "accountName" body in
    let email := JS.field "email" body in
    let password := JS.field "password" body in
    match User.findOne email (users db) with
    | Some existingUser =>
        JS.Ok (db, respond 409 (Message "User already exists with this email."))
    | None =>
        hashedPassword <- Bcrypt.hash eksblowfish password salt ;;
        created <- User.create (users db) oid accountName email hashedPassword ;;
        let (newUser, users') := created in
        JS.Ok ({| users := users'; bookings := bookings db |},
               respond 201 (AccountCreated "Account created successfully!"
                                           (User._id newUser)))
    end).

(** [POST /signin] at clock [now]. *)
Definition signin (db : DB) (body : JS.object) (now : Z) : DB * Response :=
  try_catch db (
    let email := JS.field "email" body in
    let password := JS.field "password" body in
    match User.findOne email (users db) with
    | None => JS.Ok (db, respond 401 (Message "Invalid credentials."))
    | Some user =>
        isPasswordValid <- Bcrypt.compare eksblowfish password (User.password user) ;;
        if negb isPasswordValid
        then JS.Ok (db, respond 401 (Message "Invalid credentials."))
        else
          token <- Jwt.sign hs256 serialize (User._id user) (User.email user)
                            (User.accountName user) JWT_SECRET now ;;
          JS.Ok (db, ok (SignedIn "Sign-in successful!" token))
    end).

(** [authHeader && authHeader.split(' ')[1]]: [undefined] for a header
    that is not there, the empty header itself when it is empty, and
    otherwise the second piece of the header, if it has one. *)
Definition bearer (authHeader : option string) : option string :=
  match authHeader with
  | None => None
  | Some EmptyString => Some EmptyString
  | Some header => List.nth_error (JS.split space header) 1
  end.

(** [authenticateToken]: the response that ends the request, or the
    claims that it binds to [req.user] before calling [next()]. *)
Definition authenticateToken (authHeader : option string) (now : Z)
  : Response + Jwt.Payload :=
  let token := bearer authHeader in
  match token with
  | None => inl unauthorized
  | Some token =>
      match Jwt.verify hs256 parse token JWT_SECRET now with
      | JS.Throw err => inl forbidden
      | JS.Ok user => inr user
      end
  end.

(** A route behind [authenticateToken]. *)
Definition protected (authHeader : option string) (now : Z) (db : DB)
    (handler : Jwt.Payload -> DB * Response) : DB * Response :=
  match authenticateToken authHeader now with
  | inl rejected => (db, rejected)
  | inr user => handler user
  end.

(** [GET /fetch-account-name]. *)
Definition fetch_account_name (db : DB) (authHeader : option string) (now : Z)
  : DB * Response :=
  protected authHeader now db (fun user =>
    try_catch db (
      let accountName := Jwt.accountName user in
      JS.Ok (db, ok (AccountName accountName)))).

(** [POST /bookings]; [oid] is the ObjectId of the new document. *)
Definition post_bookings (db : DB) (authHeader : option string)
    (body : JS.object) (now : Z) (oid : N) : DB * Response :=
  protected authHeader now db (fun user =>
    try_catch db (
      let date := JS.field "date" body in
      let time := JS.field "time" body in
      let service := JS.field "service" body in
      let userId := Jwt.userId user in
      created <- Booking.create (bookings db) oid date time service userId ;;
      let (newBooking, bookings') := created in
      JS.Ok ({| users := users db; bookings := bookings' |},
             respond 201 (BookingCreated "Booking created successfully!"
                                         newBooking)))).

(** [GET /bookings]. *)
Definition get_bookings (db : DB) (authHeader : option string) (now : Z)
  : DB * Response :=
  protected authHeader now db (fun user =>
    try_catch db (
      let userId := Jwt.userId user in
      let bookings := Booking.sort (Booking.find userId (bookings db)) in
      JS.Ok (db, ok (Bookings bookings)))).

(** [app.use(express.json())] (line 19) runs before every route. A
    body of more than 100kb is answered 413 and a body that is not
    JSON text is answered 400, both by Express's error handler and
    before [authenticateToken] or a handler runs; any other body
    reaches its route parsed. [json_size] is the least number of bytes
    of a JSON text that parses to the object: its braces and, for each
    field, its two strings in quotes, a colon and, after the first
    field, a comma. *)
Inductive BodyError : Type :=
| EntityParseFailed
| EntityTooLarge.

Definition body_refused (err : BodyError) : Response :=
  match err with
  | EntityParseFailed => respond 400 ErrorPage
  | EntityTooLarge => respond 413 ErrorPage
  end.

Fixpoint fields_size (obj : JS.object) : N :=
  match obj with
  | [] => 0
  | (k, v) :: rest =>
      N.of_nat (String.length k) + N.of_nat (String.length v) + 5
      + match rest with [] => 0 | _ => 1 end
      + fields_size rest
  end%N.

Definition json_size (obj : JS.object) : N := (2 + fields_size obj)%N.

Definition express_json (db : DB) (body : JS.object) (next : DB * Response)
  : DB * Response :=
  if (102400 <? json_size body)%N
  then (db, body_refused EntityTooLarge)
  else next.

(** One request to the server, with what its handler draws from the
    environment. The first five are requests to the five routes whose
    body, if they have one, [express.json()] has parsed to [body];
    [Refused] is a request, to whichever route, whose body
    [express.json()] refuses. *)
Inductive Request : Type :=
| PostSignup (body : JS.object) (salt : string) (oid : N)
| PostSignin (body : JS.object) (now : Z)
| GetFetchAccountName (authHeader : option string) (now : Z)
| PostBookings (authHeader : option string) (body : JS.object) (now : Z) (oid : N)
| GetBookings (authHeader : option string) (now : Z)
| Refused (err : BodyError).

Definition serve (db : DB) (req : Request) : DB * Response :=
  match req with
  | PostSignup body salt oid =>
      express_json db body (signup db body salt oid)
  | PostSignin body now =>
      express_json db body (signin db body now)
  | GetFetchAccountName authHeader now => fetch_account_name db authHeader now
  | PostBookings authHeader body now oid =>
      express_json db body (post_bookings db authHeader body now oid)
  | GetBookings authHeader now => get_bookings db authHeader now
  | Refused err => (db, body_refused err)
  end.

(** The responses to a sequence of requests, and the database after
    them. *)
Fixpoint serve_all (db : DB) (reqs : list Request) : DB * list Response :=
  match reqs with
  | [] => (db, [])
  | req :: rest =>
      let (db1, res) := serve db req in
      let (db2, ress) := serve_all db1 rest in
      (db2, res :: ress)
  end.

End App.

(** ** What is assumed of the libraries *)

(** A token that [jwt.sign] serialised decodes to the claims and the
    signature it was made from, and the empty string is no token. *)
Definition codec_ok (P : Platform) : Prop :=
  (forall payload signature,
      parse (serialize payload signature) = Some (payload, signature)) /\
  parse "" = None.

(** No two keys have the same digest under one salt. *)
Definition collision_free (P : Platform) : Prop :=
  forall key1 key2 salt,
    eksblowfish key1 salt = eksblowfish key2 salt -> key1 = key2.

(** ** Words of the specification *)

(** [(date, time)] pairs in lexicographic order, each component
    compared as a string. *)
Definition date_time_le (a b : Booking.t) : Prop :=
  String.ltb (Booking.date a) (Booking.date b) = true \/
  (Booking.date a = Booking.date b /\
   String.leb (Booking.time a) (Booking.time b) = true).

(** The email of every account is the email of no other account. *)
Definition emails_unique (db : DB) : Prop :=
  NoDup (map User.email (users db)).

(** A body lacks one of the three fields that [/signup] reads. *)
Definition lacks_required_field (body : JS.object) : Prop :=
  JS.field "accountName" body = None \/
  JS.field "email" body = None \/
  JS.field "password" body = None.

(** ** A platform to run the definitions on

    The digest is the key itself, the signature is the secret followed
    by the email, and a token is its six fields one after the other,
    each closed by a dot, with [%] before a dot or a [%] inside a
    field. *)

Module Test.

Fixpoint write_field (s : string) : string :=
  match s with
  | EmptyString => "."
  | String c rest =>
      if Ascii.eqb c "."%char || Ascii.eqb c "%"%char
      then String "%"%char (String c (write_field rest))
      else String c (write_field rest)
  end.

Definition push (c : ascii) (r : option (string * string)) : option (string * string) :=
  match r with
  | Some (fld, rest) => Some (String c fld, rest)
  | None => None
  end.

Fixpoint read_field (s : string) : option (string * string) :=
  match s with
  | EmptyString => None
  | String c rest =>
      if Ascii.eqb c "."%char then Some (EmptyString, rest)
      else if Ascii.eqb c "%"%char then
        match rest with
        | EmptyString => None
        | String d rest' => push d (read_field rest')
        end
      else push c (read_field rest)
  end.

Fixpoint bits (p : positive) : string :=
  match p with
  | xH => EmptyString
  | xO q => String "0"%char (bits q)
  | xI q => String "1"%char (bits q)
  end.

Fixpoint unbits (s : string) : positive :=
  match s with
  | EmptyString => xH
  | String c rest => if Ascii.eqb c "1"%char then xI (unbits rest) else xO (unbits rest)
  end.

Definition write_Z (z : Z) : string :=
  match z with
  | Z0 => "z"
  | Zpos p => String "p"%char (bits p)
  | Zneg p => String "n"%char (bits p)
  end.

Definition read_Z (s : string) : Z :=
  match s with
  | EmptyString => Z0
  | String c rest =>
      if Ascii.eqb c "p"%char then Zpos (unbits rest)
      else if Ascii.eqb c "n"%char then Zneg (unbits rest)
      else Z0
  end.

Definition encode (payload : Jwt.Payload) (signature : string) : string :=
  write_field (write_Z (Z.of_N (Jwt.userId payload))) ++
  write_field (Jwt.email payload) ++
  write_field (Jwt.accountName payload) ++
  write_field (write_Z (Jwt.iat payload)) ++
  write_field (write_Z (Jwt.exp payload)) ++
  write_field signature ++ "".

Definition decode (token : string) : option (Jwt.Payload * string) :=
  match read_field token with
  | Some (uid, s1) =>
  match read_field s1 with
  | Some (mail, s2) =>
  match read_field s2 with
  | Some (name, s3) =>
  match read_field s3 with
  | Some (issued, s4) =>
  match read_field s4 with
  | Some (expires, s5) =>
  match read_field s5 with
  | Some (signature, EmptyString) =>
      Some ({| Jwt.userId := Z.to_N (read_Z uid); Jwt.email := mail;
               Jwt.accountName := name; Jwt.iat := read_Z issued;
               Jwt.exp := read_Z expires |}, signature)
  | _ => None end
  | None => None end
  | None => None end
  | None => None end
  | None => None end
  | None => None end.

Definition platform : Platform := {|
  eksblowfish := fun key salt => string_of_list_ascii key;
  hs256 := fun secret payload => secret ++ "/" ++ Jwt.email payload;
  serialize := encode;
  parse := decode;
  JWT_SECRET := "s3cret"
|}.

(** The scenario of the specification: Alice signs up twice, signs in
    with the right and with a wrong password, books two services, the
    later one first, and lists her bookings. *)
Definition alice : JS.object :=
  [("accountName", "Alice"); ("email", "a@x.com"); ("password", "pw1")].

Definition alice_token : string :=
  match Jwt.sign (@hs256 platform) (@serialize platform)
                 7%N "a@x.com" "Alice" (@JWT_SECRET platform) 5000 with
  | JS.Ok token => token
  | JS.Throw _ => ""
  end.

Definition alice_header : option string := Some ("Bearer " ++ alice_token).

Definition haircut : JS.object :=
  [("date", "2024-01-02"); ("time", "09:00"); ("service", "haircut")].

Definition wash : JS.object :=
  [("date", "2024-01-01"); ("time", "10:00"); ("service", "wash")].

Definition scenario : list Request :=
  [ PostSignup alice "salt-1" 7%N;
    PostSignup alice "salt-2" 8%N;
    PostSignin [("email", "a@x.com"); ("password", "pw1")] 5000;
    PostSignin [("email", "a@x.com"); ("password", "wrong")] 6000;
    PostBookings alice_header haircut 7000 21%N;
    PostBookings alice_header wash 8000 22%N;
    GetBookings alice_header 9000;
    GetBookings None 9000;
    GetBookings (Some "Bearer not.a.token") 9000 ].

(** The database after the scenario, Alice's document in it, and the
    claims of her token. *)
Definition booked : DB := fst (@serve_all platform empty_db scenario).

Definition alice_account : User.t := {|
  User._id := 7%N;
  User.accountName := "Alice";
  User.email := "a@x.com";
  User.password :=
    {| Bcrypt.salt := "salt-1";
       Bcrypt.digest := string_of_list_ascii (Bcrypt.key "pw1") |}
|}.

Definition alice_claims : Jwt.Payload := {|
  Jwt.userId := 7%N;
  Jwt.email := "a@x.com";
  Jwt.accountName := "Alice";
  Jwt.iat := 5;
  Jwt.exp := 3605
|}.

(** Two passwords of 73 bytes that differ in the last byte only. *)
Fixpoint replicate (n : nat) (c : ascii) : string :=
  match n with
  | O => EmptyString
  | S m => String c (replicate m c)
  end.

Definition long_password_1 : string := replicate 72 "a"%char ++ "1".
Definition long_password_2 : string := replicate 72 "a"%char ++ "2".

Definition bob : JS.object :=
  [("accountName", "Bob"); ("email", "b@x.com");
   ("password", long_password_1)].

End Test.

(** ** Words for the properties of the other routes *)

(** A field that the [required] validator refuses: not there, or the
    empty string. *)
Definition blank (v : option string) : Prop := v = None \/ v = Some "".

(** Every stored document passed the validators of its schema. *)
Definition valid_user (u : User.t) : Prop :=
  User.accountName u <> "" /\ User.email u <> "".

Definition valid_booking (b : Booking.t) : Prop :=
  Booking.date b <> "" /\ Booking.time b <> "" /\ Booking.service b <> "".

Definition valid_db (db : DB) : Prop :=
  Forall valid_user (users db) /\ Forall valid_booking (bookings db).

(** The statuses of the responses that write nothing. *)
Definition unchanged_statuses : list nat :=
  [200; 400; 401; 403; 409; 413; 500].

(** A second account on the test platform, and requests for the
    properties below. *)
Module Demo.

Definition carol_token : string :=
  match Jwt.sign (@hs256 Test.platform) (@serialize Test.platform)
                 9%N "c@x.com" "Carol" (@JWT_SECRET Test.platform) 5000 with
  | JS.Ok token => token
  | JS.Throw _ => ""
  end.

Definition carol_header : option string := Some ("Bearer " ++ carol_token).

Definition carol_claims : Jwt.Payload := {|
  Jwt.userId := 9%N;
  Jwt.email := "c@x.com";
  Jwt.accountName := "Carol";
  Jwt.iat := 5;
  Jwt.exp := 3605
|}.

Definition massage : JS.object :=
  [("date", "2024-01-03"); ("time", "11:00"); ("service", "massage")].

Definition massage_doc : Booking.t := {|
  Booking._id := 23%N;
  Booking.date := "2024-01-03";
  Booking.time := "11:00";
  Booking.service := "massage";
  Booking.userId := 7%N
|}.

Definition no_time : JS.object :=
  [("date", "2024-01-03"); ("time", ""); ("service", "massage")].

Definition dave : JS.object :=
  [("accountName", "Dave"); ("email", "d@x.com"); ("password", "pw4")].

Definition dave_signin : JS.object :=
  [("email", "d@x.com"); ("password", "pw4")].

(** The test platform with [JWT_SECRET] not set. *)
Definition without_secret : Platform := {|
  eksblowfish := @eksblowfish Test.platform;
  hs256 := @hs256 Test.platform;
  serialize := @serialize Test.platform;
  parse := @parse Test.platform;
  JWT_SECRET := ""
|}.

End Demo.

(** * Properties *)

Unset Implicit Arguments.

(** ** Splitting a header *)

Lemma split_not_nil sep s : JS.split sep s <> [].
Proof.
  destruct s as [|c s]; simpl; [discriminate|].
  destruct (Ascii.eqb c sep); [discriminate|].
  destruct (JS.split sep s); discriminate.
Qed.

Lemma split_without_sep sep s :
  JS.mem sep s = false -> JS.split sep s = [s].
Proof.
  induction s as [|c s IH]; simpl; intros H; [reflexivity|].
  apply orb_false_iff in H as [Hc Hs].
  rewrite Hc, (IH Hs). reflexivity.
Qed.

Lemma split_at_first_sep sep word rest :
  JS.mem sep word = false ->
  JS.split sep (word ++ String sep rest) = word :: JS.split sep rest.
Proof.
  induction word as [|c w IH]; simpl; intros H.
  - rewrite Ascii.eqb_refl. reflexivity.
  - apply orb_false_iff in H as [Hc Hw].
    rewrite Hc, (IH Hw). reflexivity.
Qed.

Lemma split_word_token word token :
  JS.mem space word = false -> JS.mem space token = false ->
  JS.split space (word ++ " " ++ token) = [word; token].
Proof.
  intros Hw Ht. change (" " ++ token) with (String space token).
  rewrite split_at_first_sep by exact Hw.
  rewrite split_without_sep by exact Ht. reflexivity.
Qed.

(** ** The order of the bookings *)

Lemma string_compare_refl s : String.compare s s = Eq.
Proof.
  pose proof (String.compare_antisym s s) as H.
  destruct (String.compare s s); simpl in H; congruence.
Qed.

Lemma leb_date_time a b : Booking.leb a b = true <-> date_time_le a b.
Proof.
  unfold Booking.leb, date_time_le, String.ltb. split.
  - destruct (String.compare (Booking.date a) (Booking.date b)) eqn:E; intros H.
    + right. split; [now apply String.compare_eq_iff | exact H].
    + now left.
    + discriminate.
  - intros [H | [Hd Ht]].
    + destruct (String.compare (Booking.date a) (Booking.date b));
        congruence.
    + rewrite Hd, string_compare_refl. exact Ht.
Qed.

Lemma leb_false_flip a b : Booking.leb a b = false -> date_time_le b a.
Proof.
  unfold Booking.leb, date_time_le, String.ltb, String.leb.
  rewrite (String.compare_antisym (Booking.date b) (Booking.date a)).
  rewrite (String.compare_antisym (Booking.time b) (Booking.time a)).
  destruct (String.compare (Booking.date a) (Booking.date b)) eqn:E; simpl;
    intros H; try discriminate.
  - right. split; [symmetry; now apply String.compare_eq_iff|].
    destruct (String.compare (Booking.time a) (Booking.time b));
      simpl; congruence.
  - now left.
Qed.

Lemma insert_sorted b l :
  Sorted date_time_le l -> Sorted date_time_le (Booking.insert b l).
Proof.
  induction 1 as [|c l Hl IH Hc]; simpl.
  - repeat constructor.
  - destruct (Booking.leb b c) eqn:E.
    + constructor; [now constructor|].
      constructor. now apply leb_date_time.
    + constructor; [exact IH|].
      apply leb_false_flip in E.
      destruct l as [|d l]; simpl.
      * now constructor.
      * destruct (Booking.leb b d); constructor; [exact E|].
        now inversion Hc.
Qed.

Lemma sort_sorted l : Sorted date_time_le (Booking.sort l).
Proof.
  induction l as [|b l IH]; simpl; [constructor | now apply insert_sorted].
Qed.

Lemma insert_perm b l : Permutation (b :: l) (Booking.insert b l).
Proof.
  induction l as [|c l IH]; simpl; [reflexivity|].
  destruct (Booking.leb b c); [reflexivity|].
  rewrite perm_swap. now constructor.
Qed.

Lemma sort_perm l : Permutation l (Booking.sort l).
Proof.
  induction l as [|b l IH]; simpl; [constructor|].
  rewrite <- insert_perm. now constructor.
Qed.

Lemma find_owned owner l :
  Forall (fun b => Booking.userId b = owner) (Booking.find owner l).
Proof.
  apply Forall_forall. intros b Hb.
  apply filter_In in Hb as [_ Hb]. now apply N.eqb_eq.
Qed.

Lemma find_complete owner l b :
  In b l -> Booking.userId b = owner -> In b (Booking.find owner l).
Proof.
  intros Hin Ho. apply filter_In. split; [exact Hin | now apply N.eqb_eq].
Qed.

(** ** The collection of accounts *)

Lemma findOne_stored users u :
  In u users -> exists found,
    User.findOne (Some (User.email u)) users = Some found /\
    User.email found = User.email u /\ In found users.
Proof.
  intros Hin. simpl.
  destruct (find (fun v => String.eqb (User.email v) (User.email u)) users)
    as [found|] eqn:E.
  - apply find_some in E as [Hf He].
    exists found. repeat split; [now apply String.eqb_eq | exact Hf].
  - apply (find_none _ _ E) in Hin. now rewrite String.eqb_refl in Hin.
Qed.

Lemma unique_email_same users u v :
  NoDup (map User.email users) ->
  In u users -> In v users -> User.email u = User.email v -> u = v.
Proof.
  induction users as [|w users IH]; simpl; [contradiction|].
  intros Hnd [Hu|Hu] [Hv|Hv] He; inversion Hnd as [|? ? Hnotin Hnd']; subst.
  - reflexivity.
  - exfalso. apply Hnotin. rewrite He. now apply in_map.
  - exfalso. apply Hnotin. rewrite <- He. now apply in_map.
  - now apply IH.
Qed.

Lemma findOne_unique users u :
  NoDup (map User.email users) -> In u users ->
  User.findOne (Some (User.email u)) users = Some u.
Proof.
  intros Hnd Hin.
  destruct (findOne_stored users u Hin) as (found & Hf & He & Hfin).
  rewrite Hf. f_equal. now apply (unique_email_same users).
Qed.

Lemma findOne_none_fresh users mail :
  User.findOne (Some mail) users = None ->
  existsb (fun u => String.eqb (User.email u) mail) users = false.
Proof.
  simpl. intros H. destruct (existsb _ users) eqn:E; [|reflexivity].
  apply existsb_exists in E as (u & Hin & He).
  apply (find_none _ _ H) in Hin. congruence.
Qed.

Lemma findOne_none_not_in users mail :
  User.findOne (Some mail) users = None -> ~ In mail (map User.email users).
Proof.
  simpl. intros H Hin. apply in_map_iff in Hin as (u & He & Hin).
  apply (find_none _ _ H) in Hin. subst. now rewrite String.eqb_refl in Hin.
Qed.

(** ** The key bytes of a password *)

Lemma mem_not_in c s : JS.mem c s = false -> ~ In c (list_ascii_of_string s).
Proof.
  induction s as [|d s IH]; simpl; intros H; [tauto|].
  apply orb_false_iff in H as [Hd Hs]. intros [<-|Hin].
  - now rewrite Ascii.eqb_refl in Hd.
  - now apply IH.
Qed.

Lemma length_chars s : List.length (list_ascii_of_string s) = String.length s.
Proof. induction s; simpl; congruence. Qed.

Lemma key_nth s i :
  i < 72 ->
  nth i (Bcrypt.key s) zero =
  nth (i mod (String.length s + 1)) (list_ascii_of_string s ++ [zero])%list zero.
Proof.
  intros Hi. unfold Bcrypt.key. cbv zeta.
  rewrite length_app, length_chars. change (List.length [zero]) with 1.
  set (data := (list_ascii_of_string s ++ [zero])%list).
  set (f := fun j => nth (j mod (String.length s + 1)) data zero).
  rewrite (nth_indep _ zero (f 0)) by (now rewrite length_map, length_seq).
  rewrite map_nth, seq_nth by exact Hi. reflexivity.
Qed.

Lemma key_before_end s i :
  JS.mem zero s = false -> String.length s < 72 -> i < String.length s ->
  nth i (Bcrypt.key s) zero = nth i (list_ascii_of_string s) zero /\
  nth i (Bcrypt.key s) zero <> zero.
Proof.
  intros Hfree Hlen Hi. rewrite key_nth by lia.
  rewrite Nat.mod_small by lia.
  rewrite app_nth1 by (rewrite length_chars; lia).
  split; [reflexivity|]. intros Hz.
  apply (mem_not_in _ _ Hfree). rewrite <- Hz.
  apply nth_In. rewrite length_chars. lia.
Qed.

Lemma key_at_end s :
  String.length s < 72 -> nth (String.length s) (Bcrypt.key s) zero = zero.
Proof.
  intros Hlen. rewrite key_nth by lia. rewrite Nat.mod_small by lia.
  rewrite app_nth2 by (rewrite length_chars; lia).
  rewrite length_chars, Nat.sub_diag. reflexivity.
Qed.

Lemma key_injective_short s1 s2 :
  JS.mem zero s1 = false -> JS.mem zero s2 = false ->
  String.length s1 < 72 -> String.length s2 < 72 ->
  Bcrypt.key s1 = Bcrypt.key s2 -> s1 = s2.
Proof.
  intros Hf1 Hf2 Hl1 Hl2 Hk.
  assert (Hlen : String.length s1 = String.length s2).
  { destruct (Nat.lt_trichotomy (String.length s1) (String.length s2))
      as [Hlt | [Heq | Hgt]]; [exfalso | exact Heq | exfalso].
    - destruct (key_before_end s2 (String.length s1) Hf2 Hl2 Hlt) as [_ Hnz].
      apply Hnz. rewrite <- Hk. now apply key_at_end.
    - destruct (key_before_end s1 (String.length s2) Hf1 Hl1 Hgt) as [_ Hnz].
      apply Hnz. rewrite Hk. now apply key_at_end. }
  rewrite <- (string_of_list_ascii_of_string s1).
  rewrite <- (string_of_list_ascii_of_string s2). f_equal.
  apply (nth_ext _ _ zero zero).
  - now rewrite !length_chars.
  - intros i Hi. rewrite length_chars in Hi.
    destruct (key_before_end s1 i Hf1 Hl1 Hi) as [<- _].
    rewrite Hlen in Hi.
    destruct (key_before_end s2 i Hf2 Hl2 Hi) as [<- _].
    now rewrite Hk.
Qed.

Section Properties.

Context {P : Platform}.

(** ** The header of a protected request *)

Lemma bearer_word_token word token :
  JS.mem space word = false -> JS.mem space token = false ->
  bearer (Some (word ++ " " ++ token)) = Some token.
Proof.
  intros Hw Ht. unfold bearer.
  destruct (word ++ " " ++ token) as [|c s] eqn:E.
  - destruct word; discriminate.
  - rewrite <- E, split_word_token by assumption. reflexivity.
Qed.

Lemma bearer_without_space header :
  header <> "" -> JS.mem space header = false -> bearer (Some header) = None.
Proof.
  intros Hne Hs. unfold bearer. destruct header as [|c s]; [congruence|].
  rewrite split_without_sep by exact Hs. reflexivity.
Qed.

Lemma authenticateToken_verified authHeader token now user :
  bearer authHeader = Some token ->
  Jwt.verify hs256 parse token JWT_SECRET now = JS.Ok user ->
  authenticateToken authHeader now = inr user.
Proof.
  intros Hb Hv. unfold authenticateToken. now rewrite Hb, Hv.
Qed.

Lemma authenticateToken_inr authHeader now user :
  authenticateToken authHeader now = inr user ->
  exists token,
    bearer authHeader = Some token /\
    Jwt.verify hs256 parse token JWT_SECRET now = JS.Ok user.
Proof.
  unfold authenticateToken. intros H.
  destruct (bearer authHeader) as [token|]; [|discriminate].
  exists token. split; [reflexivity|].
  destruct (Jwt.verify hs256 parse token JWT_SECRET now); congruence.
Qed.

Lemma verify_ok_parse token secret now user :
  Jwt.verify hs256 parse token secret now = JS.Ok user ->
  parse token = Some (user, hs256 secret user) /\
  (now / 1000 < Jwt.exp user)%Z.
Proof.
  unfold Jwt.verify. intros H.
  destruct token as [|c s]; [discriminate|].
  destruct (parse (String c s)) as [[payload signature]|]; [|discriminate].
  destruct secret as [|k secret]; [discriminate|].
  destruct (String.eqb_spec signature (hs256 (String k secret) payload));
    [|discriminate].
  destruct (Z.leb_spec (Jwt.exp payload) (now / 1000)); [discriminate|].
  inversion H; subst. now split.
Qed.

(** C1. With a valid token identifying an account, [GET /bookings]
    answers 200 with bookings of that account only: every listed
    booking has the account's identifier as its owner, the list is
    non-decreasing in (date, time), and it holds the account's stored
    bookings and nothing else. The database is left as it was. *)
Theorem get_bookings_own_sorted (db : DB) (authHeader : option string)
    (now : Z) (user : Jwt.Payload) :
  authenticateToken authHeader now = inr user ->
  exists listed,
    get_bookings db authHeader now = (db, ok (Bookings listed)) /\
    Forall (fun b => Booking.userId b = Jwt.userId user) listed /\
    Sorted date_time_le listed /\
    Permutation (Booking.find (Jwt.userId user) (bookings db)) listed.
Proof.
  intros Hauth.
  exists (Booking.sort (Booking.find (Jwt.userId user) (bookings db))).
  split; [|split; [|split]].
  - unfold get_bookings, protected. rewrite Hauth. reflexivity.
  - eapply Permutation_Forall; [apply sort_perm | apply find_owned].
  - apply sort_sorted.
  - apply sort_perm.
Qed.

(** C2. A signup whose email is the email of a stored account is
    answered 409, and the database after it is the database before
    it. *)
Theorem signup_duplicate_email (db : DB) (body : JS.object)
    (salt : string) (oid : N) (u : User.t) :
  In u (users db) ->
  JS.field "email" body = Some (User.email u) ->
  signup db body salt oid =
    (db, respond 409 (Message "User already exists with this email.")).
Proof.
  intros Hin Hmail. unfold signup. rewrite Hmail.
  destruct (findOne_stored (users db) u Hin) as (found & Hf & _).
  rewrite Hf. reflexivity.
Qed.

Lemma authenticateToken_rejects authHeader token now err :
  bearer authHeader = Some token ->
  Jwt.verify hs256 parse token JWT_SECRET now = JS.Throw err ->
  authenticateToken authHeader now = inl forbidden.
Proof.
  intros Hb Hv. unfold authenticateToken. now rewrite Hb, Hv.
Qed.

Lemma append_empty_r s : s ++ "" = s.
Proof. induction s as [|c s IH]; simpl; congruence. Qed.

Lemma bearer_word_token_tail word token tail :
  JS.mem space word = false -> JS.mem space token = false ->
  tail = "" \/ (exists rest, tail = " " ++ rest) ->
  bearer (Some (word ++ " " ++ token ++ tail)) = Some token.
Proof.
  intros Hw Ht [-> | [rest ->]].
  - rewrite append_empty_r. now apply bearer_word_token.
  - unfold bearer.
    destruct (word ++ " " ++ token ++ " " ++ rest) as [|c s] eqn:E.
    + destruct word; discriminate.
    + rewrite <- E.
      change (" " ++ token ++ " " ++ rest)
        with (String space (token ++ String space rest)).
      rewrite split_at_first_sep by exact Hw.
      rewrite split_at_first_sep by exact Ht. reflexivity.
Qed.

(** Every header that holds a space is a word, a space, a token and
    then nothing or a space and more, the word and the token holding
    no space. *)
Lemma header_with_space header :
  JS.mem space header = true ->
  exists word token tail,
    header = word ++ " " ++ token ++ tail /\
    JS.mem space word = false /\ JS.mem space token = false /\
    (tail = "" \/ exists rest, tail = " " ++ rest).
Proof.
  assert (Hcut : forall s, exists token tail,
            s = token ++ tail /\ JS.mem space token = false /\
            (tail = "" \/ exists rest, tail = " " ++ rest)).
  { induction s as [|c s (token & tail & -> & Ht & Htail)].
    - exists "", "". repeat split. now left.
    - destruct (Ascii.eqb c space) eqn:Hc.
      + apply Ascii.eqb_eq in Hc. subst c.
        exists "", (" " ++ token ++ tail). repeat split.
        right. now exists (token ++ tail).
      + exists (String c token), tail. repeat split; [|exact Htail].
        simpl. now rewrite Hc. }
  induction header as [|c s IH]; simpl; [discriminate|].
  destruct (Ascii.eqb c space) eqn:Hc; simpl.
  - intros _. apply Ascii.eqb_eq in Hc. subst c.
    destruct (Hcut s) as (token & tail & -> & Ht & Htail).
    exists "", token, tail. repeat split; assumption.
  - intros Hs. destruct (IH Hs) as (word & token & tail & -> & Hw & Ht & Htail).
    exists (String c word), token, tail. repeat split; try assumption.
    simpl. now rewrite Hc.
Qed.

(** C3, as the code has it. A protected route, whatever its handler,
    answers by the [Authorization] header alone. Without the header,
    or with a header that is not empty and holds no space, it answers
    401. With a header that holds a space, the token is what stands
    between the first space and the next one, or the end. If the token
    is empty or does not decode, or the server has no secret, or the
    signature is not the server's, or the expiry has come, the answer
    is 403, with the same message in every case, and so it is for the
    empty header. If the token decodes, carries the server's signature
    and has not expired, the handler runs with the claims of the token
    as [req.user]. A refused request leaves the database as it was. *)
Theorem protected_by_header (now : Z) (db : DB)
    (handler : Jwt.Payload -> DB * Response) :
  protected None now db handler = (db, unauthorized) /\
  protected (Some "") now db handler = (db, forbidden) /\
  (forall header,
     header <> "" -> JS.mem space header = false ->
     protected (Some header) now db handler = (db, unauthorized)) /\
  (forall word token tail,
     JS.mem space word = false -> JS.mem space token = false ->
     tail = "" \/ (exists rest, tail = " " ++ rest) ->
     (token = "" \/ parse token = None ->
        protected (Some (word ++ " " ++ token ++ tail)) now db handler
          = (db, forbidden)) /\
     (forall payload signature,
        parse token = Some (payload, signature) ->
        JWT_SECRET = "" \/ signature <> hs256 JWT_SECRET payload \/
        (Jwt.exp payload <= now / 1000)%Z ->
        protected (Some (word ++ " " ++ token ++ tail)) now db handler
          = (db, forbidden)) /\
     (forall payload,
        token <> "" -> JWT_SECRET <> "" ->
        parse token = Some (payload, hs256 JWT_SECRET payload) ->
        (now / 1000 < Jwt.exp payload)%Z ->
        authenticateToken (Some (word ++ " " ++ token ++ tail)) now
          = inr payload /\
        protected (Some (word ++ " " ++ token ++ tail)) now db handler
          = handler payload)).
Proof.
  split; [reflexivity|]. split; [reflexivity|]. split.
  - intros header Hne Hs. unfold protected, authenticateToken.
    now rewrite bearer_without_space.
  - intros word token tail Hw Ht Htail.
    unfold protected, authenticateToken.
    rewrite (bearer_word_token_tail word token tail Hw Ht Htail).
    unfold Jwt.verify. split; [|split].
    + intros [-> | Hp]; [reflexivity|].
      destruct token; [reflexivity | now rewrite Hp].
    + intros payload signature Hp Hcause.
      destruct token; [reflexivity|]. rewrite Hp.
      destruct JWT_SECRET as [|k secret] eqn:Hk; [reflexivity|].
      destruct Hcause as [Hnone | [Hsig | Hexp]]; [discriminate | |].
      * apply String.eqb_neq in Hsig. now rewrite Hsig.
      * destruct (String.eqb signature (hs256 (String k secret) payload));
          [|reflexivity].
        apply Z.leb_le in Hexp. now rewrite Hexp.
    + intros payload Hne Hsecret Hp Hlt.
      destruct token; [congruence|]. rewrite Hp.
      destruct JWT_SECRET as [|k secret] eqn:Hk; [congruence|].
      rewrite String.eqb_refl. apply Z.leb_gt in Hlt. rewrite Hlt.
      now split.
Qed.

(** C9, as the code has it. The scheme is not looked at, and the token
    is the second piece of the header: for a header made of a word, a
    space and a token, neither holding a space, followed by nothing or
    by a space and anything, the token is verified whatever the word
    and whatever follows, and the request is accepted or answered 403
    as the verification says. A header that is not empty and holds no
    space is answered 401, a valid token on its own included. *)
Theorem authenticateToken_scheme_ignored (now : Z) :
  (forall word token tail,
     JS.mem space word = false -> JS.mem space token = false ->
     tail = "" \/ (exists rest, tail = " " ++ rest) ->
     authenticateToken (Some (word ++ " " ++ token ++ tail)) now =
       match Jwt.verify hs256 parse token JWT_SECRET now with
       | JS.Ok user => inr user
       | JS.Throw _ => inl forbidden
       end) /\
  (forall header,
     header <> "" -> JS.mem space header = false ->
     authenticateToken (Some header) now = inl unauthorized).
Proof.
  split.
  - intros word token tail Hw Ht Htail. unfold authenticateToken.
    rewrite (bearer_word_token_tail word token tail Hw Ht Htail).
    reflexivity.
  - intros header Hne Hs. unfold authenticateToken.
    rewrite bearer_without_space by assumption. reflexivity.
Qed.

(** C10. With a valid token, [GET /fetch-account-name] answers 200 with
    the [accountName] that the token carries, whatever the database
    holds, and leaves the database as it was. *)
Theorem fetch_account_name_from_token (authHeader : option string)
    (now : Z) (user : Jwt.Payload) :
  authenticateToken authHeader now = inr user ->
  (exists token,
     bearer authHeader = Some token /\
     parse token = Some (user, hs256 JWT_SECRET user)) /\
  forall db,
    fetch_account_name db authHeader now =
      (db, ok (AccountName (Jwt.accountName user))).
Proof.
  intros Hauth. split.
  - destruct (authenticateToken_inr _ _ _ Hauth) as (token & Hb & Hv).
    exists token. split; [exact Hb|].
    now apply verify_ok_parse in Hv.
  - intros db. unfold fetch_account_name, protected. now rewrite Hauth.
Qed.

(** ** Signing up *)

Lemma findOne_appended users doc :
  User.findOne (Some (User.email doc)) users = None ->
  User.findOne (Some (User.email doc)) (users ++ [doc])%list = Some doc.
Proof.
  simpl. induction users as [|u users IH]; simpl.
  - now rewrite String.eqb_refl.
  - destruct (String.eqb (User.email u) (User.email doc)); [discriminate|].
    exact IH.
Qed.

Lemma signup_created db body salt oid name mail p :
  JS.field "accountName" body = Some name -> name <> "" ->
  JS.field "email" body = Some mail -> mail <> "" ->
  JS.field "password" body = Some p ->
  User.findOne (Some mail) (users db) = None ->
  let doc := {| User._id := oid; User.accountName := name;
                User.email := mail;
                User.password :=
                  {| Bcrypt.salt := salt;
                     Bcrypt.digest := eksblowfish (Bcrypt.key p) salt |} |} in
  signup db body salt oid =
    ({| users := (users db ++ [doc])%list; bookings := bookings db |},
     respond 201 (AccountCreated "Account created successfully!" oid)).
Proof.
  intros Hn Hne Hm Hme Hp Hfresh. unfold signup.
  rewrite Hn, Hm, Hp, Hfresh. simpl Bcrypt.hash. unfold User.create.
  destruct name as [|c name]; [congruence|].
  destruct mail as [|d mail]; [congruence|].
  cbn [JS.bind required].
  rewrite (findOne_none_fresh _ _ Hfresh). reflexivity.
Qed.

Lemma signup_users db body salt oid :
  users (fst (signup db body salt oid)) = users db \/
  exists doc,
    users (fst (signup db body salt oid)) = (users db ++ [doc])%list /\
    User.findOne (Some (User.email doc)) (users db) = None.
Proof.
  unfold signup.
  destruct (User.findOne (JS.field "email" body) (users db)) eqn:Hf;
    [now left|].
  destruct (JS.field "password" body) as [p|]; [|now left].
  simpl Bcrypt.hash. unfold User.create.
  destruct (JS.field "accountName" body) as [[|c name]|]; try now left.
  destruct (JS.field "email" body) as [[|d mail]|]; try now left.
  cbn [JS.bind required].
  rewrite (findOne_none_fresh _ _ Hf). right. eexists. split; [reflexivity|].
  exact Hf.
Qed.

Lemma signup_bookings db body salt oid :
  bookings (fst (signup db body salt oid)) = bookings db.
Proof.
  unfold signup.
  destruct (User.findOne (JS.field "email" body) (users db));
    [reflexivity|].
  destruct (Bcrypt.hash eksblowfish (JS.field "password" body) salt);
    [|reflexivity].
  cbn [JS.bind].
  destruct (User.create (users db) oid (JS.field "accountName" body)
              (JS.field "email" body) a) as [[doc users']|]; reflexivity.
Qed.

Lemma signin_frame db body now : fst (signin db body now) = db.
Proof.
  unfold signin.
  destruct (User.findOne (JS.field "email" body) (users db)) as [user|];
    [|reflexivity].
  destruct (Bcrypt.compare eksblowfish (JS.field "password" body) _)
    as [[|]|]; try reflexivity.
  simpl negb. cbv iota.
  destruct (Jwt.sign hs256 serialize (User._id user) (User.email user)
              (User.accountName user) JWT_SECRET now); reflexivity.
Qed.

(** The unique index at work: every request leaves the emails of the
    accounts distinct. *)
Lemma serve_emails_unique db req :
  emails_unique db -> emails_unique (fst (serve db req)).
Proof.
  unfold emails_unique. intros Hu.
  destruct req; simpl serve; unfold express_json;
    try (destruct (102400 <? json_size body)%N; [exact Hu|]).
  - destruct (signup_users db body salt oid) as [-> | (doc & -> & Hfresh)];
      [exact Hu|].
    rewrite map_app. simpl.
    apply NoDup_app; [exact Hu | repeat constructor; now intros [] | ].
    intros mail Hin [<-|[]]. now apply (findOne_none_not_in _ _ Hfresh).
  - now rewrite signin_frame.
  - unfold fetch_account_name, protected.
    destruct (authenticateToken authHeader now); exact Hu.
  - unfold post_bookings, protected.
    destruct (authenticateToken authHeader now); [exact Hu|].
    destruct (Booking.create _ _ _ _ _ _) as [[doc bs]|]; exact Hu.
  - unfold get_bookings, protected.
    destruct (authenticateToken authHeader now); exact Hu.
  - exact Hu.
Qed.

Lemma serve_all_emails_unique reqs : forall db,
  emails_unique db -> emails_unique (fst (serve_all db reqs)).
Proof.
  induction reqs as [|req reqs IH]; intros db Hu; simpl; [exact Hu|].
  pose proof (serve_emails_unique db req Hu) as H1.
  destruct (serve db req) as [db1 res]. simpl in H1.
  specialize (IH db1 H1).
  destruct (serve_all db1 reqs) as [db2 ress]. exact IH.
Qed.

(** C8, as the code has it. A signup whose body lacks one of
    [accountName], [email] and [password], and for which the lookup by
    email finds no account, is answered 500 with the generic message
    and stores nothing. *)
Theorem signup_missing_field (db : DB) (body : JS.object)
    (salt : string) (oid : N) :
  lacks_required_field body ->
  User.findOne (JS.field "email" body) (users db) = None ->
  signup db body salt oid = (db, internal_error).
Proof.
  intros Hlacks Hfresh. unfold signup. rewrite Hfresh.
  destruct (JS.field "password" body) as [p|] eqn:Hp; [|reflexivity].
  simpl Bcrypt.hash. unfold User.create.
  destruct (JS.field "accountName" body) as [[|c name]|] eqn:Hn;
    try reflexivity.
  destruct (JS.field "email" body) as [[|d mail]|] eqn:Hm;
    try reflexivity.
  destruct Hlacks as [H | [H | H]]; congruence.
Qed.

(** ** Signing in *)

(** C5. A signin whose email is found in no account and a signin whose
    email is found but whose password the stored hash refuses are both
    answered 401, and the two responses are the same response, status
    and body; neither changes the database. *)
Theorem signin_failures_alike (db1 db2 : DB) (unknown known : JS.object)
    (now1 now2 : Z) (user : User.t) (wrong : string) :
  User.findOne (JS.field "email" unknown) (users db1) = None ->
  User.findOne (JS.field "email" known) (users db2) = Some user ->
  JS.field "password" known = Some wrong ->
  Bcrypt.compare eksblowfish (Some wrong) (User.password user) = JS.Ok false ->
  signin db1 unknown now1 = (db1, respond 401 (Message "Invalid credentials.")) /\
  signin db2 known now2 = (db2, respond 401 (Message "Invalid credentials.")) /\
  snd (signin db1 unknown now1) = snd (signin db2 known now2).
Proof.
  intros Hunknown Hknown Hpw Hwrong.
  assert (H1 : signin db1 unknown now1 =
               (db1, respond 401 (Message "Invalid credentials."))).
  { unfold signin. now rewrite Hunknown. }
  assert (H2 : signin db2 known now2 =
               (db2, respond 401 (Message "Invalid credentials."))).
  { unfold signin. now rewrite Hknown, Hpw, Hwrong. }
  rewrite H1, H2. auto.
Qed.

(** ** Tokens *)

Lemma sign_inv uid mail name secret now token :
  Jwt.sign hs256 serialize uid mail name secret now = JS.Ok token ->
  secret <> "" /\
  token =
    let payload := {| Jwt.userId := uid; Jwt.email := mail;
                      Jwt.accountName := name; Jwt.iat := (now / 1000)%Z;
                      Jwt.exp := (now / 1000 + 3600)%Z |} in
    serialize payload (hs256 secret payload).
Proof.
  unfold Jwt.sign. destruct secret as [|k secret]; [discriminate|].
  intros H. inversion H. split; [discriminate | reflexivity].
Qed.

Lemma sign_with_secret uid mail name now :
  JWT_SECRET <> "" ->
  exists token,
    Jwt.sign hs256 serialize uid mail name JWT_SECRET now = JS.Ok token.
Proof.
  intros Hsecret. unfold Jwt.sign.
  destruct JWT_SECRET as [|k secret]; [congruence|]. eexists. reflexivity.
Qed.

Lemma verify_sign uid mail name now t token :
  codec_ok P ->
  Jwt.sign hs256 serialize uid mail name JWT_SECRET now = JS.Ok token ->
  Jwt.verify hs256 parse token JWT_SECRET t =
  let payload := {| Jwt.userId := uid; Jwt.email := mail;
                    Jwt.accountName := name; Jwt.iat := (now / 1000)%Z;
                    Jwt.exp := (now / 1000 + 3600)%Z |} in
  if (Jwt.exp payload <=? t / 1000)%Z then JS.Throw Jwt.TokenExpired
  else JS.Ok payload.
Proof.
  intros [Hround Hempty] Hsign.
  destruct (sign_inv _ _ _ _ _ _ Hsign) as [Hsecret ->].
  unfold Jwt.verify. cbv zeta.
  set (payload := {| Jwt.userId := uid; Jwt.email := mail;
                     Jwt.accountName := name; Jwt.iat := (now / 1000)%Z;
                     Jwt.exp := (now / 1000 + 3600)%Z |}).
  pose proof (Hround payload (hs256 JWT_SECRET payload)) as Hp.
  destruct (serialize payload (hs256 JWT_SECRET payload)) as [|c token].
  - congruence.
  - rewrite Hp. destruct JWT_SECRET as [|k secret]; [congruence|].
    rewrite String.eqb_refl. reflexivity.
Qed.

Lemma signin_signed_in db db' body now message token :
  signin db body now = (db', ok (SignedIn message token)) ->
  exists user,
    User.findOne (JS.field "email" body) (users db) = Some user /\
    Jwt.sign hs256 serialize (User._id user) (User.email user)
             (User.accountName user) JWT_SECRET now = JS.Ok token.
Proof.
  unfold signin.
  destruct (User.findOne (JS.field "email" body) (users db)) as [user|];
    [|discriminate].
  destruct (Bcrypt.compare eksblowfish (JS.field "password" body) _)
    as [[|]|]; try discriminate.
  simpl negb. cbv iota.
  destruct (Jwt.sign hs256 serialize (User._id user) (User.email user)
              (User.accountName user) JWT_SECRET now) as [issued|] eqn:Hsign;
    [|discriminate].
  simpl. intros H. inversion H; subst. now exists user.
Qed.

(** C4. On a server with a signing secret, in a database whose
    accounts have distinct emails, a signin with the email of a stored
    account and a password that its stored hash accepts is answered
    200 with a token; the token verifies, and the identifier, email
    and name among its claims are the [_id], [email] and [accountName]
    of that account. *)
Theorem signin_token_identity (db : DB) (body : JS.object) (now : Z)
    (account : User.t) (password : string) :
  codec_ok P ->
  JWT_SECRET <> "" ->
  emails_unique db ->
  In account (users db) ->
  JS.field "email" body = Some (User.email account) ->
  JS.field "password" body = Some password ->
  Bcrypt.compare eksblowfish (Some password) (User.password account)
    = JS.Ok true ->
  exists token claims,
    signin db body now = (db, ok (SignedIn "Sign-in successful!" token)) /\
    Jwt.verify hs256 parse token JWT_SECRET now = JS.Ok claims /\
    Jwt.userId claims = User._id account /\
    Jwt.email claims = User.email account /\
    Jwt.accountName claims = User.accountName account.
Proof.
  intros Hcodec Hsecret Hunique Hin Hmail Hpw Hvalid.
  destruct (sign_with_secret (User._id account) (User.email account)
              (User.accountName account) now Hsecret) as [token Hsign].
  exists token. eexists. split; [|split].
  - unfold signin. rewrite Hmail, (findOne_unique _ _ Hunique Hin).
    rewrite Hpw, Hvalid. simpl negb. cbv iota. rewrite Hsign. reflexivity.
  - rewrite (verify_sign _ _ _ _ _ _ Hcodec Hsign). cbv zeta. simpl Jwt.exp.
    destruct (Z.leb_spec (now / 1000 + 3600) (now / 1000)); [lia|].
    reflexivity.
  - simpl. auto.
Qed.

(** C6. A token that [/signin] issued at clock [now] carries the
    second of its issue as [iat] and an expiry [exp] 3600 seconds
    later. Verification accepts it at every clock before the expiry
    and refuses it as expired at every clock from the expiry on: it is
    accepted 59 minutes after its issue and refused 61 minutes after
    it. *)
Theorem issued_token_lifetime (db db' : DB) (body : JS.object) (now : Z)
    (message token : string) :
  codec_ok P ->
  signin db body now = (db', ok (SignedIn message token)) ->
  exists claims,
    parse token = Some (claims, hs256 JWT_SECRET claims) /\
    Jwt.iat claims = (now / 1000)%Z /\
    Jwt.exp claims = (Jwt.iat claims + 3600)%Z /\
    (forall t, (t < 1000 * Jwt.exp claims)%Z ->
       Jwt.verify hs256 parse token JWT_SECRET t = JS.Ok claims) /\
    (forall t, (1000 * Jwt.exp claims <= t)%Z ->
       Jwt.verify hs256 parse token JWT_SECRET t = JS.Throw Jwt.TokenExpired) /\
    Jwt.verify hs256 parse token JWT_SECRET (now + 59 * 60 * 1000)
      = JS.Ok claims /\
    Jwt.verify hs256 parse token JWT_SECRET (now + 61 * 60 * 1000)
      = JS.Throw Jwt.TokenExpired.
Proof.
  intros Hcodec Hsignin.
  destruct (signin_signed_in _ _ _ _ _ _ Hsignin) as (user & _ & Hsign).
  set (claims := {| Jwt.userId := User._id user;
                    Jwt.email := User.email user;
                    Jwt.accountName := User.accountName user;
                    Jwt.iat := (now / 1000)%Z;
                    Jwt.exp := (now / 1000 + 3600)%Z |}).
  assert (Hbefore : forall t, (t / 1000 < now / 1000 + 3600)%Z ->
            Jwt.verify hs256 parse token JWT_SECRET t = JS.Ok claims).
  { intros t Ht. rewrite (verify_sign _ _ _ _ _ _ Hcodec Hsign). cbv zeta.
    simpl Jwt.exp. apply Z.leb_gt in Ht. now rewrite Ht. }
  assert (Hafter : forall t, (now / 1000 + 3600 <= t / 1000)%Z ->
            Jwt.verify hs256 parse token JWT_SECRET t
            = JS.Throw Jwt.TokenExpired).
  { intros t Ht. rewrite (verify_sign _ _ _ _ _ _ Hcodec Hsign). cbv zeta.
    simpl Jwt.exp. apply Z.leb_le in Ht. now rewrite Ht. }
  exists claims. repeat split.
  - destruct (sign_inv _ _ _ _ _ _ Hsign) as [_ ->]. apply Hcodec.
  - intros t Ht. apply Hbefore.
    change (Jwt.exp claims) with (now / 1000 + 3600)%Z in Ht.
    apply Z.div_lt_upper_bound; lia.
  - intros t Ht. apply Hafter.
    change (Jwt.exp claims) with (now / 1000 + 3600)%Z in Ht.
    apply Z.div_le_lower_bound; lia.
  - apply Hbefore.
    replace (now + 59 * 60 * 1000)%Z with (now + 3540 * 1000)%Z by lia.
    rewrite Z.div_add by lia. lia.
  - apply Hafter.
    replace (now + 61 * 60 * 1000)%Z with (now + 3660 * 1000)%Z by lia.
    rewrite Z.div_add by lia. lia.
Qed.

(** ** Passwords *)

Lemma compare_same_key p other h salt :
  h = {| Bcrypt.salt := salt;
         Bcrypt.digest := eksblowfish (Bcrypt.key p) salt |} ->
  Bcrypt.key other = Bcrypt.key p ->
  Bcrypt.compare eksblowfish (Some other) h = JS.Ok true.
Proof.
  intros -> Hk. unfold Bcrypt.compare, Bcrypt.Hash_eqb. simpl.
  now rewrite Hk, !String.eqb_refl.
Qed.

Lemma compare_other_key p other h salt :
  collision_free P ->
  h = {| Bcrypt.salt := salt;
         Bcrypt.digest := eksblowfish (Bcrypt.key p) salt |} ->
  Bcrypt.key other <> Bcrypt.key p ->
  Bcrypt.compare eksblowfish (Some other) h = JS.Ok false.
Proof.
  intros Hfree -> Hk. unfold Bcrypt.compare, Bcrypt.Hash_eqb. simpl.
  rewrite String.eqb_refl. simpl. f_equal.
  apply String.eqb_neq. intros He. apply Hk. now apply (Hfree _ _ salt).
Qed.

Lemma compare_hashed p other salt :
  Bcrypt.compare eksblowfish (Some other)
    {| Bcrypt.salt := salt;
       Bcrypt.digest := eksblowfish (Bcrypt.key p) salt |} =
  JS.Ok (String.eqb (eksblowfish (Bcrypt.key other) salt)
                    (eksblowfish (Bcrypt.key p) salt)).
Proof.
  unfold Bcrypt.compare, Bcrypt.Hash_eqb. simpl.
  now rewrite String.eqb_refl.
Qed.

(** C7, as the code has it. After a signup with a name and an email
    that are not empty, an email that no account has, and a password
    [p], the lookup by that email finds the new account, and its
    stored hash accepts [p]. The hash accepts a plaintext if and only
    if the 72 key bytes of the plaintext have the digest of the key
    bytes of [p] under the stored salt, and refuses it if and only if
    they have another digest: it accepts every plaintext with the key
    bytes of [p]. If [p] is shorter than 72 bytes and holds no NUL,
    every other such plaintext has other key bytes. The hash holds the
    salt it was made with: hashing [p] again gives the stored hash if
    and only if the same salt is drawn. *)
Theorem signup_account_password (db : DB) (body : JS.object)
    (salt : string) (oid : N) (name mail p : string) :
  JS.field "accountName" body = Some name -> name <> "" ->
  JS.field "email" body = Some mail -> mail <> "" ->
  JS.field "password" body = Some p ->
  User.findOne (Some mail) (users db) = None ->
  exists account,
    snd (signup db body salt oid) =
      respond 201 (AccountCreated "Account created successfully!" oid) /\
    User.findOne (Some mail) (users (fst (signup db body salt oid)))
      = Some account /\
    User.email account = mail /\
    Bcrypt.compare eksblowfish (Some p) (User.password account)
      = JS.Ok true /\
    (forall other, Bcrypt.key other = Bcrypt.key p ->
       Bcrypt.compare eksblowfish (Some other) (User.password account)
         = JS.Ok true) /\
    (forall other,
       Bcrypt.compare eksblowfish (Some other) (User.password account)
         = JS.Ok true <->
       eksblowfish (Bcrypt.key other) salt = eksblowfish (Bcrypt.key p) salt) /\
    (forall other,
       Bcrypt.compare eksblowfish (Some other) (User.password account)
         = JS.Ok false <->
       eksblowfish (Bcrypt.key other) salt <> eksblowfish (Bcrypt.key p) salt) /\
    (JS.mem zero p = false -> String.length p < 72 ->
     forall other,
       JS.mem zero other = false -> String.length other < 72 ->
       other <> p -> Bcrypt.key other <> Bcrypt.key p) /\
    (forall salt',
       Bcrypt.hash eksblowfish (Some p) salt' = JS.Ok (User.password account)
       <-> salt' = salt).
Proof.
  intros Hn Hne Hm Hme Hp Hfresh.
  rewrite (signup_created db body salt oid name mail p Hn Hne Hm Hme Hp Hfresh).
  cbv zeta. eexists. split; [reflexivity|]. split.
  - simpl fst. simpl users.
    apply (findOne_appended (users db)
             {| User._id := oid; User.accountName := name;
                User.email := mail;
                User.password :=
                  {| Bcrypt.salt := salt;
                     Bcrypt.digest := eksblowfish (Bcrypt.key p) salt |} |}).
    exact Hfresh.
  - simpl User.email. simpl User.password.
    split; [reflexivity|]. split; [|split; [|split; [|split; [|split]]]].
    + now apply (compare_same_key p p _ salt).
    + intros other Hk. now apply (compare_same_key p other _ salt).
    + intros other. rewrite compare_hashed. split.
      * intros H. inversion H as [He]. now apply String.eqb_eq.
      * intros He. f_equal. now apply String.eqb_eq.
    + intros other. rewrite compare_hashed. split.
      * intros H. inversion H as [He]. now apply String.eqb_neq.
      * intros He. f_equal. now apply String.eqb_neq.
    + intros Hfp Hlp other Hfo Hlo Hdiff Hk. apply Hdiff.
      now apply key_injective_short.
    + simpl. split; [intros H; now inversion H | intros ->; reflexivity].
Qed.

End Properties.

(** ** The test platform meets what is assumed *)

Lemma read_write_field s rest :
  Test.read_field (Test.write_field s ++ rest) = Some (s, rest).
Proof.
  induction s as [|c s IH]; simpl; [reflexivity|].
  destruct (Ascii.eqb c "."%char) eqn:Hdot; simpl.
  - now rewrite IH.
  - destruct (Ascii.eqb c "%"%char) eqn:Hpct; simpl.
    + now rewrite IH.
    + now rewrite Hdot, Hpct, IH.
Qed.

Lemma unbits_bits p : Test.unbits (Test.bits p) = p.
Proof. induction p; simpl; congruence. Qed.

Lemma read_write_Z z : Test.read_Z (Test.write_Z z) = z.
Proof. destruct z; simpl; now rewrite ?unbits_bits. Qed.

Lemma test_codec_ok : codec_ok Test.platform.
Proof.
  split; [|reflexivity].
  intros [uid mail name issued expires] signature. simpl.
  unfold Test.decode, Test.encode. simpl.
  rewrite !read_write_field, !read_write_Z, N2Z.id. reflexivity.
Qed.

Lemma test_collision_free : collision_free Test.platform.
Proof.
  intros key1 key2 salt. simpl. intros H.
  rewrite <- (list_ascii_of_string_of_list_ascii key1).
  rewrite <- (list_ascii_of_string_of_list_ascii key2).
  now rewrite H.
Qed.

(** The scenario of the specification, run. *)
Example scenario_statuses :
  map status (snd (@serve_all Test.platform empty_db Test.scenario)) =
  [201; 409; 200; 401; 201; 201; 200; 401; 403].
Proof. vm_compute. reflexivity. Qed.

Example scenario_listing :
  nth_error (snd (@serve_all Test.platform empty_db Test.scenario)) 6 =
  Some (ok (Bookings
    [ {| Booking._id := 22; Booking.date := "2024-01-01";
         Booking.time := "10:00"; Booking.service := "wash";
         Booking.userId := 7 |};
      {| Booking._id := 21; Booking.date := "2024-01-02";
         Booking.time := "09:00"; Booking.service := "haircut";
         Booking.userId := 7 |} ])).
Proof. vm_compute. reflexivity. Qed.

Example split_bearer : JS.split space "Bearer abc" = ["Bearer"; "abc"].
Proof. reflexivity. Qed.

Example split_trailing : JS.split space "Bearer " = ["Bearer"; ""].
Proof. reflexivity. Qed.

Example basic_scheme_accepted :
  @authenticateToken Test.platform (Some ("Basic " ++ Test.alice_token)) 9000
  = inr Test.alice_claims.
Proof. vm_compute. reflexivity. Qed.

Example bare_token_unauthorized :
  @authenticateToken Test.platform (Some Test.alice_token) 9000
  = inl unauthorized.
Proof. vm_compute. reflexivity. Qed.

Example key_wraps : Bcrypt.key "a" = Bcrypt.key (String "a" (String zero "a")).
Proof. reflexivity. Qed.

(** ** Where the code departs from the specification *)

(** C7: two passwords that differ after their 72nd byte. Bob signs up
    with the first; the hash stored for him accepts the second, on
    every platform. *)
Lemma long_passwords_share_a_hash :
  Test.long_password_1 <> Test.long_password_2 /\
  forall (P : Platform) (salt : string) (oid : N),
    exists account,
      User.findOne (Some "b@x.com")
        (users (fst (@signup P empty_db Test.bob salt oid))) = Some account /\
      Bcrypt.compare (@eksblowfish P) (Some Test.long_password_2)
        (User.password account) = JS.Ok true.
Proof.
  split; [discriminate|]. intros P salt oid.
  rewrite (@signup_created P empty_db Test.bob salt oid "Bob" "b@x.com"
             Test.long_password_1) by (reflexivity || discriminate).
  cbv zeta. eexists. split; [reflexivity|].
  apply (@compare_same_key P Test.long_password_1 Test.long_password_2 _ salt);
    reflexivity.
Qed.

(** C8: Alice has an account; a signup that gives her email and
    nothing else lacks two required fields, and is answered 409, on
    every platform. *)
Lemma signup_without_password_conflict :
  lacks_required_field [("email", "a@x.com")] /\
  forall (P : Platform) (salt salt' : string) (oid oid' : N),
    let db := fst (@signup P empty_db Test.alice salt oid) in
    @signup P db [("email", "a@x.com")] salt' oid' =
      (db, respond 409 (Message "User already exists with this email.")).
Proof.
  split; [now left|]. intros P salt salt' oid oid'.
  rewrite (@signup_created P empty_db Test.alice salt oid "Alice" "a@x.com"
             "pw1") by (reflexivity || discriminate).
  cbv zeta. simpl fst. unfold signup. simpl JS.field.
  simpl User.findOne. reflexivity.
Qed.

(** C3: the empty header has no second piece, so it carries no token,
    and every protected route answers it 403, on every platform. *)
Lemma empty_header_without_token :
  List.nth_error (JS.split space "") 1 = None /\
  forall (P : Platform) (now : Z) (db : DB)
         (handler : Jwt.Payload -> DB * Response),
    @protected P (Some "") now db handler = (db, forbidden).
Proof. split; reflexivity. Qed.

(** C9: the empty header holds no space, and is answered 403, on every
    platform. On the test platform, Alice's token followed by a space
    and a word is accepted, while what stands after the first space of
    that header, the token with the space and the word, is no token. *)
Lemma header_rule_departs :
  (JS.mem space "" = false /\
   forall (P : Platform) (now : Z),
     @authenticateToken P (Some "") now = inl forbidden) /\
  (@authenticateToken Test.platform
     (Some ("Bearer " ++ Test.alice_token ++ " extra")) 9000
   = inr Test.alice_claims /\
   Jwt.verify (@hs256 Test.platform) (@parse Test.platform)
     (Test.alice_token ++ " extra") (@JWT_SECRET Test.platform) 9000
   = JS.Throw Jwt.JwtMalformed).
Proof.
  split; [split; reflexivity|]. split; vm_compute; reflexivity.
Qed.

(** ** The theorems at work on the test platform *)

Lemma test_secret : @JWT_SECRET Test.platform <> "".
Proof. discriminate. Qed.

Lemma alice_authenticated :
  @authenticateToken Test.platform Test.alice_header 9000
  = inr Test.alice_claims.
Proof. vm_compute. reflexivity. Qed.

Lemma alice_stored : In Test.alice_account (users Test.booked).
Proof. vm_compute. left. reflexivity. Qed.

Lemma booked_emails_unique : emails_unique Test.booked.
Proof.
  unfold Test.booked. apply serve_all_emails_unique. constructor.
Qed.

Lemma protected_by_header_witness :
  let handler := fun user : Jwt.Payload =>
    (Test.booked, ok (AccountName (Jwt.accountName user))) in
  @protected Test.platform None 9000 Test.booked handler
    = (Test.booked, unauthorized) /\
  @protected Test.platform (Some "Bearer") 9000 Test.booked handler
    = (Test.booked, unauthorized) /\
  @protected Test.platform (Some "Bearer not.a.token") 9000 Test.booked handler
    = (Test.booked, forbidden) /\
  @protected Test.platform (Some ("Bearer " ++ Test.alice_token)) 3605000
    Test.booked handler = (Test.booked, forbidden) /\
  @protected Test.platform (Some ("Bearer " ++ Test.alice_token)) 9000
    Test.booked handler = handler Test.alice_claims.
Proof.
  cbv zeta.
  set (handler := fun user : Jwt.Payload =>
         (Test.booked, ok (AccountName (Jwt.accountName user)))).
  destruct (@protected_by_header Test.platform 9000 Test.booked handler)
    as (Hnone & _ & Hword & Htoken).
  destruct (@protected_by_header Test.platform 3605000 Test.booked handler)
    as (_ & _ & _ & Htoken').
  destruct (Htoken "Bearer" "not.a.token" "" eq_refl eq_refl
              (or_introl eq_refl)) as (Hbad & _ & _).
  destruct (Htoken "Bearer" Test.alice_token "" eq_refl eq_refl
              (or_introl eq_refl)) as (_ & _ & Hgood).
  destruct (Htoken' "Bearer" Test.alice_token "" eq_refl eq_refl
              (or_introl eq_refl)) as (_ & Hlate & _).
  split; [exact Hnone|].
  split; [apply (Hword "Bearer"); [discriminate | reflexivity]|].
  split; [exact (Hbad (or_intror eq_refl))|].
  split.
  - refine (Hlate Test.alice_claims _ eq_refl (or_intror (or_intror _))).
    vm_compute. discriminate.
  - refine (proj2 (Hgood Test.alice_claims _ _ eq_refl _));
      [vm_compute; discriminate | discriminate | vm_compute; reflexivity].
Defined.

Lemma authenticateToken_scheme_ignored_witness :
  @authenticateToken Test.platform (Some ("Basic " ++ Test.alice_token)) 9000
    = inr Test.alice_claims /\
  @authenticateToken Test.platform
    (Some ("Bearer " ++ Test.alice_token ++ " extra")) 9000
    = inr Test.alice_claims /\
  @authenticateToken Test.platform (Some Test.alice_token) 9000
    = inl unauthorized.
Proof.
  destruct (@authenticateToken_scheme_ignored Test.platform 9000)
    as [Hsecond Hbare].
  split; [exact (Hsecond "Basic" Test.alice_token "" eq_refl eq_refl
                   (or_introl eq_refl))|].
  split; [exact (Hsecond "Bearer" Test.alice_token " extra" eq_refl eq_refl
                   (or_intror (ex_intro _ "extra" eq_refl)))|].
  apply Hbare; [vm_compute; discriminate | reflexivity].
Defined.

Lemma get_bookings_own_sorted_witness :
  exists listed,
    @get_bookings Test.platform Test.booked Test.alice_header 9000
      = (Test.booked, ok (Bookings listed)) /\
    Forall (fun b => Booking.userId b = 7%N) listed /\
    Sorted date_time_le listed /\
    Permutation (Booking.find 7%N (bookings Test.booked)) listed.
Proof.
  exact (@get_bookings_own_sorted Test.platform Test.booked Test.alice_header
           9000 Test.alice_claims alice_authenticated).
Defined.

Lemma signup_duplicate_email_witness :
  @signup Test.platform Test.booked Test.alice "salt-3" 9%N =
    (Test.booked, respond 409 (Message "User already exists with this email.")).
Proof.
  exact (@signup_duplicate_email Test.platform Test.booked Test.alice
           "salt-3" 9%N Test.alice_account alice_stored eq_refl).
Defined.

Lemma signin_token_identity_witness :
  exists token claims,
    @signin Test.platform Test.booked
      [("email", "a@x.com"); ("password", "pw1")] 5000
      = (Test.booked, ok (SignedIn "Sign-in successful!" token)) /\
    Jwt.verify (@hs256 Test.platform) (@parse Test.platform) token
      (@JWT_SECRET Test.platform) 5000 = JS.Ok claims /\
    Jwt.userId claims = 7%N /\
    Jwt.email claims = "a@x.com" /\
    Jwt.accountName claims = "Alice".
Proof.
  exact (@signin_token_identity Test.platform Test.booked
           [("email", "a@x.com"); ("password", "pw1")] 5000
           Test.alice_account "pw1" test_codec_ok test_secret
           booked_emails_unique alice_stored eq_refl eq_refl eq_refl).
Defined.

Lemma signin_failures_alike_witness :
  let unknown := [("email", "nobody@x.com"); ("password", "pw1")] in
  let known := [("email", "a@x.com"); ("password", "wrong")] in
  @signin Test.platform Test.booked unknown 5000
    = (Test.booked, respond 401 (Message "Invalid credentials.")) /\
  @signin Test.platform Test.booked known 6000
    = (Test.booked, respond 401 (Message "Invalid credentials.")) /\
  snd (@signin Test.platform Test.booked unknown 5000)
    = snd (@signin Test.platform Test.booked known 6000).
Proof.
  refine (@signin_failures_alike Test.platform Test.booked Test.booked
            [("email", "nobody@x.com"); ("password", "pw1")]
            [("email", "a@x.com"); ("password", "wrong")] 5000 6000
            Test.alice_account "wrong" _ _ eq_refl _);
    vm_compute; reflexivity.
Defined.

Lemma issued_token_lifetime_witness :
  exists claims,
    @parse Test.platform Test.alice_token
      = Some (claims, @hs256 Test.platform (@JWT_SECRET Test.platform) claims) /\
    Jwt.iat claims = (5000 / 1000)%Z /\
    Jwt.exp claims = (Jwt.iat claims + 3600)%Z /\
    (forall t, (t < 1000 * Jwt.exp claims)%Z ->
       Jwt.verify (@hs256 Test.platform) (@parse Test.platform)
         Test.alice_token (@JWT_SECRET Test.platform) t = JS.Ok claims) /\
    (forall t, (1000 * Jwt.exp claims <= t)%Z ->
       Jwt.verify (@hs256 Test.platform) (@parse Test.platform)
         Test.alice_token (@JWT_SECRET Test.platform) t
       = JS.Throw Jwt.TokenExpired) /\
    Jwt.verify (@hs256 Test.platform) (@parse Test.platform)
      Test.alice_token (@JWT_SECRET Test.platform) (5000 + 59 * 60 * 1000)
      = JS.Ok claims /\
    Jwt.verify (@hs256 Test.platform) (@parse Test.platform)
      Test.alice_token (@JWT_SECRET Test.platform) (5000 + 61 * 60 * 1000)
      = JS.Throw Jwt.TokenExpired.
Proof.
  refine (@issued_token_lifetime Test.platform Test.booked Test.booked
            [("email", "a@x.com"); ("password", "pw1")] 5000
            "Sign-in successful!" Test.alice_token test_codec_ok _).
  vm_compute. reflexivity.
Defined.

Lemma signup_account_password_witness :
  exists account,
    snd (@signup Test.platform empty_db Test.alice "salt-1" 7%N) =
      respond 201 (AccountCreated "Account created successfully!" 7%N) /\
    User.findOne (Some "a@x.com")
      (users (fst (@signup Test.platform empty_db Test.alice "salt-1" 7%N)))
      = Some account /\
    User.email account = "a@x.com" /\
    Bcrypt.compare (@eksblowfish Test.platform) (Some "pw1")
      (User.password account) = JS.Ok true /\
    (forall other, Bcrypt.key other = Bcrypt.key "pw1" ->
       Bcrypt.compare (@eksblowfish Test.platform) (Some other)
         (User.password account) = JS.Ok true) /\
    (forall other,
       Bcrypt.compare (@eksblowfish Test.platform) (Some other)
         (User.password account) = JS.Ok true <->
       @eksblowfish Test.platform (Bcrypt.key other) "salt-1"
       = @eksblowfish Test.platform (Bcrypt.key "pw1") "salt-1") /\
    (forall other,
       Bcrypt.compare (@eksblowfish Test.platform) (Some other)
         (User.password account) = JS.Ok false <->
       @eksblowfish Test.platform (Bcrypt.key other) "salt-1"
       <> @eksblowfish Test.platform (Bcrypt.key "pw1") "salt-1") /\
    (JS.mem zero "pw1" = false -> String.length "pw1" < 72 ->
     forall other,
       JS.mem zero other = false -> String.length other < 72 ->
       other <> "pw1" -> Bcrypt.key other <> Bcrypt.key "pw1") /\
    (forall salt',
       Bcrypt.hash (@eksblowfish Test.platform) (Some "pw1") salt'
         = JS.Ok (User.password account)
       <-> salt' = "salt-1").
Proof.
  refine (@signup_account_password Test.platform empty_db Test.alice
            "salt-1" 7%N "Alice" "a@x.com" "pw1"
            eq_refl _ eq_refl _ eq_refl eq_refl); discriminate.
Defined.

Lemma signup_missing_field_witness :
  @signup Test.platform Test.booked [("email", "b@x.com")] "salt-3" 9%N
  = (Test.booked, internal_error).
Proof.
  refine (@signup_missing_field Test.platform Test.booked
            [("email", "b@x.com")] "salt-3" 9%N (or_introl eq_refl) _).
  vm_compute. reflexivity.
Defined.

Lemma fetch_account_name_from_token_witness :
  (exists token,
     bearer Test.alice_header = Some token /\
     @parse Test.platform token
       = Some (Test.alice_claims,
               @hs256 Test.platform (@JWT_SECRET Test.platform)
                 Test.alice_claims)) /\
  forall db,
    @fetch_account_name Test.platform db Test.alice_header 9000 =
      (db, ok (AccountName "Alice")).
Proof.
  exact (@fetch_account_name_from_token Test.platform Test.alice_header 9000
           Test.alice_claims alice_authenticated).
Defined.


(** * The other routes, and how the routes compose *)

(** ** More on splitting *)

Lemma split_pieces_without_sep sep s :
  Forall (fun piece => JS.mem sep piece = false) (JS.split sep s).
Proof.
  induction s as [|c s IH]; simpl.
  - repeat constructor.
  - destruct (Ascii.eqb c sep) eqn:Hc.
    + constructor; [reflexivity | exact IH].
    + destruct (JS.split sep s) as [|piece pieces].
      * repeat constructor. simpl. now rewrite Hc.
      * inversion IH; subst. constructor; [|assumption].
        simpl. now rewrite Hc.
Qed.

Section Routes.

Context {P : Platform}.

(** ** What each handler can answer *)

Lemma authenticateToken_outcome authHeader now :
  authenticateToken authHeader now = inl unauthorized \/
  authenticateToken authHeader now = inl forbidden \/
  exists user, authenticateToken authHeader now = inr user.
Proof.
  unfold authenticateToken. destruct (bearer authHeader) as [token|];
    [|now left].
  destruct (Jwt.verify hs256 parse token JWT_SECRET now) as [user|err];
    [right; right; now exists user | right; now left].
Qed.

Lemma signup_outcome db body salt oid :
  signup db body salt oid =
    (db, respond 409 (Message "User already exists with this email.")) \/
  signup db body salt oid = (db, internal_error) \/
  exists doc,
    signup db body salt oid =
      ({| users := (users db ++ [doc])%list; bookings := bookings db |},
       respond 201 (AccountCreated "Account created successfully!" oid)) /\
    User._id doc = oid /\ valid_user doc /\
    User.findOne (Some (User.email doc)) (users db) = None /\
    JS.field "email" body = Some (User.email doc).
Proof.
  unfold signup.
  destruct (User.findOne (JS.field "email" body) (users db)) eqn:Hf;
    [now left|].
  right.
  destruct (JS.field "password" body) as [p|]; [|now left].
  simpl Bcrypt.hash. unfold User.create.
  destruct (JS.field "accountName" body) as [[|c name]|]; try now left.
  destruct (JS.field "email" body) as [[|d mail]|]; try now left.
  cbn [JS.bind required].
  rewrite (findOne_none_fresh _ _ Hf). right. eexists.
  split; [reflexivity|]. repeat split; try discriminate. exact Hf.
Qed.

Lemma signin_outcome db body now :
  signin db body now = (db, respond 401 (Message "Invalid credentials.")) \/
  signin db body now = (db, internal_error) \/
  exists token,
    signin db body now = (db, ok (SignedIn "Sign-in successful!" token)).
Proof.
  unfold signin.
  destruct (User.findOne (JS.field "email" body) (users db)) as [user|];
    [|now left].
  destruct (Bcrypt.compare eksblowfish (JS.field "password" body) _)
    as [[|]|]; simpl.
  - destruct (Jwt.sign hs256 serialize (User._id user) (User.email user)
                (User.accountName user) JWT_SECRET now) as [token|]; simpl.
    + right; right. now exists token.
    + right; now left.
  - now left.
  - right; now left.
Qed.

Lemma post_bookings_outcome db authHeader body now oid :
  post_bookings db authHeader body now oid = (db, unauthorized) \/
  post_bookings db authHeader body now oid = (db, forbidden) \/
  post_bookings db authHeader body now oid = (db, internal_error) \/
  exists user doc,
    authenticateToken authHeader now = inr user /\
    post_bookings db authHeader body now oid =
      ({| users := users db; bookings := (bookings db ++ [doc])%list |},
       respond 201 (BookingCreated "Booking created successfully!" doc)) /\
    Booking.userId doc = Jwt.userId user /\ valid_booking doc.
Proof.
  unfold post_bookings, protected.
  destruct (authenticateToken_outcome authHeader now)
    as [-> | [-> | [user Hu]]]; [now left | right; now left |].
  rewrite Hu. right; right. unfold Booking.create.
  destruct (JS.field "date" body) as [[|c d]|]; try now left.
  destruct (JS.field "time" body) as [[|c' tm]|]; try now left.
  destruct (JS.field "service" body) as [[|c'' sv]|]; try now left.
  right. exists user. eexists. split; [reflexivity|].
  split; [reflexivity|]. split; [reflexivity|].
  repeat split; discriminate.
Qed.

Lemma reading_outcome db authHeader now (answer : Jwt.Payload -> Json) :
  let route := protected authHeader now db (fun user =>
                 try_catch db (JS.Ok (db, ok (answer user)))) in
  route = (db, unauthorized) \/ route = (db, forbidden) \/
  exists user, route = (db, ok (answer user)).
Proof.
  cbv zeta. unfold protected.
  destruct (authenticateToken_outcome authHeader now)
    as [-> | [-> | [user ->]]]; [now left | right; now left |].
  right; right. now exists user.
Qed.

Lemma serve_step db req :
  (exists doc,
     serve db req =
       ({| users := (users db ++ [doc])%list; bookings := bookings db |},
        respond 201 (AccountCreated "Account created successfully!"
                                    (User._id doc))) /\
     valid_user doc /\
     User.findOne (Some (User.email doc)) (users db) = None) \/
  (exists doc,
     serve db req =
       ({| users := users db; bookings := (bookings db ++ [doc])%list |},
        respond 201 (BookingCreated "Booking created successfully!" doc)) /\
     valid_booking doc) \/
  (fst (serve db req) = db /\
   In (status (snd (serve db req))) unchanged_statuses).
Proof.
  destruct req; simpl serve; unfold express_json;
    try (destruct (102400 <? json_size body)%N;
         [right; right; simpl; tauto|]).
  - destruct (signup_outcome db body salt oid)
      as [-> | [-> | (doc & -> & <- & Hv & Hf & _)]].
    + right; right. simpl. tauto.
    + right; right. simpl. tauto.
    + left. now exists doc.
  - destruct (signin_outcome db body now)
      as [-> | [-> | (token & ->)]]; right; right; simpl; tauto.
  - destruct (reading_outcome db authHeader now
                (fun user => AccountName (Jwt.accountName user)))
      as [H | [H | (user & H)]];
      unfold fetch_account_name; rewrite H; right; right; simpl; tauto.
  - destruct (post_bookings_outcome db authHeader body now oid)
      as [-> | [-> | [-> | (user & doc & _ & -> & _ & Hv)]]].
    + right; right. simpl. tauto.
    + right; right. simpl. tauto.
    + right; right. simpl. tauto.
    + right; left. now exists doc.
  - destruct (reading_outcome db authHeader now
                (fun user => Bookings (Booking.sort
                   (Booking.find (Jwt.userId user) (bookings db)))))
      as [H | [H | (user & H)]];
      unfold get_bookings; rewrite H; right; right; simpl; tauto.
  - right; right. destruct err; simpl; tauto.
Qed.


(** X2. No sequence of requests removes or changes a stored document:
    the collections after it are the collections before it with
    documents added at the end, at most one for each request. *)
Theorem serve_all_append_only (reqs : list Request) : forall db : DB,
  exists newUsers newBookings,
    users (fst (serve_all db reqs)) = (users db ++ newUsers)%list /\
    bookings (fst (serve_all db reqs)) = (bookings db ++ newBookings)%list /\
    List.length newUsers + List.length newBookings <= List.length reqs.
Proof.
  induction reqs as [|req reqs IH]; intros db; simpl.
  - exists [], []. rewrite !app_nil_r. repeat split. simpl. lia.
  - destruct (serve db req) as [db1 res] eqn:E.
    destruct (IH db1) as (us & bs & Hu & Hb & Hlen).
    destruct (serve_all db1 reqs) as [db2 ress]. simpl in *.
    rewrite Hu, Hb.
    destruct (serve_step db req)
      as [(doc & H & _) | [(doc & H & _) | [H _]]];
      rewrite E in H.
    + inversion H; subst. simpl. exists (doc :: us), bs.
      rewrite <- app_assoc. simpl. repeat split. lia.
    + inversion H; subst. simpl. exists us, (doc :: bs).
      rewrite <- app_assoc. simpl. repeat split. lia.
    + simpl in H. subst. exists us, bs. repeat split. lia.
Qed.

(** X3. Whatever requests the server has answered since it started
    with empty collections, no two accounts have the same email. *)
Theorem reachable_emails_unique (reqs : list Request) :
  emails_unique (fst (serve_all empty_db reqs)).
Proof. apply serve_all_emails_unique. constructor. Qed.

Lemma serve_valid db req : valid_db db -> valid_db (fst (serve db req)).
Proof.
  intros [Hu Hb].
  destruct (serve_step db req)
    as [(doc & -> & Hv & _) | [(doc & -> & Hv) | [-> _]]]; simpl.
  - split; [|exact Hb]. simpl. apply Forall_app. split; [exact Hu|].
    constructor; [exact Hv | constructor].
  - split; [exact Hu|]. simpl. apply Forall_app. split; [exact Hb|].
    constructor; [exact Hv | constructor].
  - now split.
Qed.

(** X4. Whatever requests the server has answered since it started
    with empty collections, every stored account has a name and an
    email that are not empty, and every stored booking a date, a time
    and a service that are not empty. *)
Theorem reachable_documents_valid (reqs : list Request) :
  valid_db (fst (serve_all empty_db reqs)).
Proof.
  assert (H : forall db, valid_db db -> valid_db (fst (serve_all db reqs))).
  { induction reqs as [|req reqs IH]; intros db Hv; simpl; [exact Hv|].
    pose proof (serve_valid db req Hv) as H1.
    destruct (serve db req) as [db1 res]. simpl in H1.
    specialize (IH db1 H1).
    destruct (serve_all db1 reqs) as [db2 ress]. exact IH. }
  apply H. split; constructor.
Qed.

(** ** Creating a booking *)

(** X5. With a valid token and a date, a time and a service that are
    not empty, [POST /bookings] answers 201 with the new booking: it
    has the three fields of the body, the ObjectId it was given, and
    the identifier in the token as its owner. The booking is added at
    the end of the collection; the accounts are left as they were. *)
Theorem post_bookings_created (db : DB) (authHeader : option string)
    (body : JS.object) (now : Z) (oid : N) (user : Jwt.Payload)
    (d tm sv : string) :
  authenticateToken authHeader now = inr user ->
  JS.field "date" body = Some d -> d <> "" ->
  JS.field "time" body = Some tm -> tm <> "" ->
  JS.field "service" body = Some sv -> sv <> "" ->
  let doc := {| Booking._id := oid; Booking.date := d; Booking.time := tm;
                Booking.service := sv;
                Booking.userId := Jwt.userId user |} in
  post_bookings db authHeader body now oid =
    ({| users := users db; bookings := (bookings db ++ [doc])%list |},
     respond 201 (BookingCreated "Booking created successfully!" doc)).
Proof.
  intros Hauth Hd Hdne Ht Htne Hs Hsne. cbv zeta.
  unfold post_bookings, protected. rewrite Hauth, Hd, Ht, Hs.
  destruct d; [congruence|]. destruct tm; [congruence|].
  destruct sv; [congruence|]. reflexivity.
Qed.

(** X6. With a valid token, a [POST /bookings] whose date, time or
    service is missing or empty is answered 500 with the generic
    message, and stores nothing. *)
Theorem post_bookings_blank_field (db : DB) (authHeader : option string)
    (body : JS.object) (now : Z) (oid : N) (user : Jwt.Payload) :
  authenticateToken authHeader now = inr user ->
  blank (JS.field "date" body) \/ blank (JS.field "time" body) \/
  blank (JS.field "service" body) ->
  post_bookings db authHeader body now oid = (db, internal_error).
Proof.
  intros Hauth Hblank. unfold post_bookings, protected. rewrite Hauth.
  unfold Booking.create.
  destruct (JS.field "date" body) as [[|c d]|]; try reflexivity.
  destruct (JS.field "time" body) as [[|c' tm]|]; try reflexivity.
  destruct (JS.field "service" body) as [[|c'' sv]|]; try reflexivity.
  destruct Hblank as [[H|H] | [[H|H] | [H|H]]]; discriminate.
Qed.

Lemma field_other key value name obj :
  key <> name -> JS.field name ((key, value) :: obj) = JS.field name obj.
Proof. intros H. simpl. apply String.eqb_neq in H. now rewrite H. Qed.

(** X7. [POST /bookings] reads [date], [time] and [service] from the
    body and nothing else: a field of another name, [userId] for one,
    changes neither the answer nor what is stored. The owner of a
    booking cannot be chosen in the body. *)
Theorem post_bookings_ignores_other_fields (db : DB)
    (authHeader : option string) (body : JS.object) (now : Z) (oid : N)
    (key value : string) :
  key <> "date" -> key <> "time" -> key <> "service" ->
  post_bookings db authHeader ((key, value) :: body) now oid =
  post_bookings db authHeader body now oid.
Proof.
  intros Hd Ht Hs. unfold post_bookings.
  now rewrite !field_other by assumption.
Qed.

Lemma find_appended_own uid bs doc :
  Booking.userId doc = uid ->
  Booking.find uid (bs ++ [doc]) = (Booking.find uid bs ++ [doc])%list.
Proof.
  intros Ho. unfold Booking.find. rewrite filter_app. simpl.
  apply N.eqb_eq in Ho. now rewrite Ho.
Qed.

Lemma find_appended_other uid bs doc :
  Booking.userId doc <> uid ->
  Booking.find uid (bs ++ [doc]) = Booking.find uid bs.
Proof.
  intros Ho. unfold Booking.find. rewrite filter_app. simpl.
  apply N.eqb_neq in Ho. rewrite Ho. apply app_nil_r.
Qed.

(** X8. After a [POST /bookings] answered 201, the new booking is
    owned by the account of the token that created it. The listing of
    that account is its listing before with the new booking added; the
    listing of every other account is what it was before. *)
Theorem post_then_get (db db1 : DB) (authHeader : option string)
    (body : JS.object) (now : Z) (oid : N) (message : string)
    (doc : Booking.t) (authHeader' : option string) (now' : Z)
    (user' : Jwt.Payload) :
  post_bookings db authHeader body now oid =
    (db1, respond 201 (BookingCreated message doc)) ->
  authenticateToken authHeader' now' = inr user' ->
  (exists user,
     authenticateToken authHeader now = inr user /\
     Booking.userId doc = Jwt.userId user) /\
  exists listed listed',
    get_bookings db authHeader' now' = (db, ok (Bookings listed)) /\
    get_bookings db1 authHeader' now' = (db1, ok (Bookings listed')) /\
    (Booking.userId doc = Jwt.userId user' ->
       Permutation (doc :: listed) listed') /\
    (Booking.userId doc <> Jwt.userId user' -> listed' = listed).
Proof.
  intros Hpost Hauth'.
  destruct (post_bookings_outcome db authHeader body now oid)
    as [H | [H | [H | (user & doc0 & Hauth & H & Ho & _)]]];
    rewrite H in Hpost; try discriminate.
  inversion Hpost; subst. split; [now exists user|].
  exists (Booking.sort (Booking.find (Jwt.userId user') (bookings db))).
  exists (Booking.sort (Booking.find (Jwt.userId user')
                          (bookings db ++ [doc]))).
  unfold get_bookings, protected. rewrite Hauth'. simpl.
  repeat split.
  - intros Hown. rewrite (find_appended_own _ _ _ Hown).
    eapply Permutation_trans; [|apply sort_perm].
    eapply Permutation_trans; [|apply Permutation_cons_append].
    constructor. symmetry. apply sort_perm.
  - intros Hother. now rewrite (find_appended_other _ _ _ Hother).
Qed.

(** ** Signing up and signing in *)

(** X9. A signup whose name or email is the empty string, and for
    which the lookup by email finds no account, is answered 500 with
    the generic message and stores nothing. *)
Theorem signup_empty_field (db : DB) (body : JS.object)
    (salt : string) (oid : N) :
  JS.field "accountName" body = Some "" \/ JS.field "email" body = Some "" ->
  User.findOne (JS.field "email" body) (users db) = None ->
  signup db body salt oid = (db, internal_error).
Proof.
  intros Hempty Hfresh. unfold signup. rewrite Hfresh.
  destruct (JS.field "password" body) as [p|]; [|reflexivity].
  simpl Bcrypt.hash. unfold User.create.
  destruct (JS.field "accountName" body) as [[|c name]|]; try reflexivity.
  destruct (JS.field "email" body) as [[|d mail]|]; try reflexivity.
  destruct Hempty as [H|H]; discriminate.
Qed.


(** X11. A signin without a password is answered 401 when its email is
    found in no account and 500 when it is found in one: the two
    answers differ. *)
Theorem signin_without_password (db : DB) (body : JS.object) (now : Z) :
  JS.field "password" body = None ->
  signin db body now =
    match User.findOne (JS.field "email" body) (users db) with
    | None => (db, respond 401 (Message "Invalid credentials."))
    | Some account => (db, internal_error)
    end.
Proof.
  intros Hpw. unfold signin. rewrite Hpw.
  destruct (User.findOne (JS.field "email" body) (users db)); reflexivity.
Qed.

(** X12. On a server with a signing secret, after a signup answered
    201, a signin with the same email and password is answered 200
    with a token that verifies, and the claims of the token are the
    ObjectId, the email and the name of the new account. *)
Theorem signup_then_signin (db : DB) (body body' : JS.object)
    (salt : string) (oid : N) (now : Z) (name mail p : string) :
  codec_ok P ->
  JWT_SECRET <> "" ->
  JS.field "accountName" body = Some name -> name <> "" ->
  JS.field "email" body = Some mail -> mail <> "" ->
  JS.field "password" body = Some p ->
  User.findOne (Some mail) (users db) = None ->
  JS.field "email" body' = Some mail ->
  JS.field "password" body' = Some p ->
  let db1 := fst (signup db body salt oid) in
  snd (signup db body salt oid) =
    respond 201 (AccountCreated "Account created successfully!" oid) /\
  exists token claims,
    signin db1 body' now = (db1, ok (SignedIn "Sign-in successful!" token)) /\
    Jwt.verify hs256 parse token JWT_SECRET now = JS.Ok claims /\
    Jwt.userId claims = oid /\
    Jwt.email claims = mail /\
    Jwt.accountName claims = name.
Proof.
  intros Hcodec Hsecret Hn Hne Hm Hme Hp Hfresh Hm' Hp'.
  rewrite (signup_created db body salt oid name mail p Hn Hne Hm Hme Hp Hfresh).
  cbv zeta. simpl fst. simpl snd. split; [reflexivity|].
  set (doc := {| User._id := oid; User.accountName := name;
                 User.email := mail;
                 User.password :=
                   {| Bcrypt.salt := salt;
                      Bcrypt.digest := eksblowfish (Bcrypt.key p) salt |} |}).
  destruct (sign_with_secret oid mail name now Hsecret) as [token Hsign].
  exists token. eexists. split; [|split].
  - unfold signin. rewrite Hm', Hp'. cbn [users].
    change (Some mail) with (Some (User.email doc)).
    rewrite (findOne_appended (users db) doc Hfresh).
    rewrite (compare_same_key p p (User.password doc) salt eq_refl eq_refl).
    simpl negb. cbv iota. simpl User._id. simpl User.email.
    simpl User.accountName. rewrite Hsign. reflexivity.
  - rewrite (verify_sign _ _ _ _ _ _ Hcodec Hsign). cbv zeta. simpl Jwt.exp.
    destruct (Z.leb_spec (now / 1000 + 3600) (now / 1000)); [lia|].
    reflexivity.
  - simpl. auto.
Qed.

(** ** Tokens at the protected routes *)

(** X13. The token that [authenticateToken] takes from a header never
    holds a space, and what follows a second space in the header is
    not looked at. *)
Theorem bearer_second_piece :
  (forall header token,
     bearer (Some header) = Some token -> JS.mem space token = false) /\
  (forall word token rest,
     JS.mem space word = false -> JS.mem space token = false ->
     bearer (Some (word ++ " " ++ token ++ " " ++ rest)) = Some token).
Proof.
  split.
  - intros header token. unfold bearer.
    destruct header as [|c s]; [intros H; now inversion H|].
    intros H. apply nth_error_In in H.
    pose proof (split_pieces_without_sep space (String c s)) as Hall.
    rewrite Forall_forall in Hall. now apply Hall.
  - intros word token rest Hw Ht. unfold bearer.
    destruct (word ++ " " ++ token ++ " " ++ rest) as [|c s] eqn:E.
    + destruct word; discriminate.
    + rewrite <- E.
      change (" " ++ token ++ " " ++ rest)
        with (String space (token ++ String space rest)).
      rewrite split_at_first_sep by exact Hw.
      rewrite split_at_first_sep by exact Ht. reflexivity.
Qed.

(** X14. A token that [/signin] issued, sent as [Bearer <token>] at a
    clock before its expiry, is accepted by [authenticateToken] with
    the identifier, email and name of the account that signed in, and
    [GET /fetch-account-name] answers with the name of that account.
    The token is taken to hold no space. *)
Theorem issued_token_opens_routes (db db' : DB) (body : JS.object)
    (now t : Z) (message token : string) :
  codec_ok P ->
  signin db body now = (db', ok (SignedIn message token)) ->
  JS.mem space token = false ->
  (t < 1000 * (now / 1000 + 3600))%Z ->
  exists account claims,
    User.findOne (JS.field "email" body) (users db) = Some account /\
    authenticateToken (Some ("Bearer " ++ token)) t = inr claims /\
    Jwt.userId claims = User._id account /\
    Jwt.email claims = User.email account /\
    Jwt.accountName claims = User.accountName account /\
    forall db2,
      fetch_account_name db2 (Some ("Bearer " ++ token)) t =
        (db2, ok (AccountName (User.accountName account))).
Proof.
  intros Hcodec Hsignin Hspace Ht.
  destruct (signin_signed_in _ _ _ _ _ _ Hsignin) as (account & Hf & Hsign).
  assert (Hauth : authenticateToken (Some ("Bearer " ++ token)) t =
            inr {| Jwt.userId := User._id account;
                   Jwt.email := User.email account;
                   Jwt.accountName := User.accountName account;
                   Jwt.iat := (now / 1000)%Z;
                   Jwt.exp := (now / 1000 + 3600)%Z |}).
  { unfold authenticateToken.
    change ("Bearer " ++ token) with ("Bearer" ++ " " ++ token).
    rewrite (bearer_word_token "Bearer" token eq_refl Hspace).
    rewrite (verify_sign _ _ _ _ _ _ Hcodec Hsign). cbv zeta. simpl Jwt.exp.
    assert (Hlt : (t / 1000 < now / 1000 + 3600)%Z)
      by (apply Z.div_lt_upper_bound; lia).
    apply Z.leb_gt in Hlt. now rewrite Hlt. }
  exists account. eexists. split; [exact Hf|]. split; [exact Hauth|].
  repeat split.
  intros db2. unfold fetch_account_name, protected. now rewrite Hauth.
Qed.

(** X15. A token that [/signin] issued, sent as [Bearer <token>] at a
    clock from its expiry on, is answered 403 by every protected
    route, and the database is left as it was. The token is taken to
    hold no space. *)
Theorem issued_token_expires_at_routes (db db' : DB) (body : JS.object)
    (now t : Z) (message token : string) :
  codec_ok P ->
  signin db body now = (db', ok (SignedIn message token)) ->
  JS.mem space token = false ->
  (1000 * (now / 1000 + 3600) <= t)%Z ->
  forall (db2 : DB) (handler : Jwt.Payload -> DB * Response),
    protected (Some ("Bearer " ++ token)) t db2 handler = (db2, forbidden).
Proof.
  intros Hcodec Hsignin Hspace Ht db2 handler.
  destruct (signin_signed_in _ _ _ _ _ _ Hsignin) as (account & _ & Hsign).
  unfold protected, authenticateToken.
  change ("Bearer " ++ token) with ("Bearer" ++ " " ++ token).
  rewrite (bearer_word_token "Bearer" token eq_refl Hspace).
  rewrite (verify_sign _ _ _ _ _ _ Hcodec Hsign). cbv zeta. simpl Jwt.exp.
  assert (Hle : (now / 1000 + 3600 <= t / 1000)%Z)
    by (apply Z.div_le_lower_bound; lia).
  apply Z.leb_le in Hle. now rewrite Hle.
Qed.

Lemma serve_all_keeps_accounts reqs : forall db u,
  In u (users db) -> In u (users (fst (serve_all db reqs))).
Proof.
  induction reqs as [|req reqs IH]; intros db u Hin; simpl; [exact Hin|].
  assert (H1 : In u (users (fst (serve db req)))).
  { destruct (serve_step db req)
      as [(doc & -> & _) | [(doc & -> & _) | [-> _]]]; simpl;
      [apply in_or_app; now left | exact Hin | exact Hin]. }
  destruct (serve db req) as [db1 res]. simpl in H1.
  specialize (IH db1 u H1).
  destruct (serve_all db1 reqs) as [db2 ress]. exact IH.
Qed.

(** X16. After a signup answered 201 and any requests after it, every
    signup with the same email that reaches the handler, whatever its
    other fields, is answered 409 and stores nothing. *)
Theorem signup_twice_conflict (db : DB) (body body' : JS.object)
    (salt salt' : string) (oid oid' : N) (reqs : list Request) :
  status (snd (signup db body salt oid)) = 201 ->
  JS.field "email" body' = JS.field "email" body ->
  let db1 := fst (serve_all (fst (signup db body salt oid)) reqs) in
  signup db1 body' salt' oid' =
    (db1, respond 409 (Message "User already exists with this email.")).
Proof.
  intros H201 Hmail. cbv zeta.
  destruct (signup_outcome db body salt oid)
    as [H | [H | (doc & H & _ & _ & Hf & Hm)]];
    rewrite H in H201 |- *; try discriminate.
  cbn [fst].
  set (db1 := fst (serve_all _ reqs)).
  assert (Hin : In doc (users db1)).
  { apply serve_all_keeps_accounts. simpl. apply in_or_app. right. now left. }
  destruct (findOne_stored (users db1) doc Hin) as (found & Hfound & _).
  unfold signup. now rewrite Hmail, Hm, Hfound.
Qed.

(** X17. With a valid token of an account that owns no stored booking,
    [GET /bookings] answers 200 with the empty list. *)
Theorem get_bookings_none (db : DB) (authHeader : option string) (now : Z)
    (user : Jwt.Payload) :
  authenticateToken authHeader now = inr user ->
  (forall b, In b (bookings db) -> Booking.userId b <> Jwt.userId user) ->
  get_bookings db authHeader now = (db, ok (Bookings [])).
Proof.
  intros Hauth Hnone. unfold get_bookings, protected. rewrite Hauth.
  cbn [try_catch].
  replace (Booking.find (Jwt.userId user) (bookings db)) with (@nil Booking.t);
    [reflexivity|].
  symmetry. unfold Booking.find.
  induction (bookings db) as [|b bs IH]; [reflexivity|]. simpl.
  destruct (N.eqb_spec (Booking.userId b) (Jwt.userId user)) as [He|_].
  - exfalso. apply (Hnone b); [now left | exact He].
  - apply IH. intros b' Hin. apply Hnone. now right.
Qed.

(** X18. On a server whose [JWT_SECRET] is empty or not set, a signin
    with the email of an account and a password that its hash accepts
    is answered 500, and [authenticateToken] lets no request through:
    every protected route answers 401 or 403, whatever the token. *)
Theorem no_secret_no_session (db : DB) (body : JS.object) (now : Z)
    (account : User.t) (password : string) (authHeader : option string) :
  JWT_SECRET = "" ->
  (User.findOne (JS.field "email" body) (users db) = Some account ->
   JS.field "password" body = Some password ->
   Bcrypt.compare eksblowfish (Some password) (User.password account)
     = JS.Ok true ->
   signin db body now = (db, internal_error)) /\
  (authenticateToken authHeader now = inl unauthorized \/
   authenticateToken authHeader now = inl forbidden).
Proof.
  intros Hsecret. split.
  - intros Hf Hpw Hok. unfold signin. rewrite Hf, Hpw, Hok.
    unfold Jwt.sign. now rewrite Hsecret.
  - unfold authenticateToken.
    destruct (bearer authHeader) as [token|]; [right | now left].
    unfold Jwt.verify. destruct token; [reflexivity|].
    destruct (parse _) as [[payload signature]|]; [|reflexivity].
    now rewrite Hsecret.
Qed.

End Routes.

(** ** The properties at work on the test platform *)

Lemma carol_authenticated :
  @authenticateToken Test.platform Demo.carol_header 9000
  = inr Demo.carol_claims.
Proof. vm_compute. reflexivity. Qed.

Lemma post_bookings_created_witness :
  @post_bookings Test.platform Test.booked Test.alice_header Demo.massage
    9000 23%N =
  ({| users := users Test.booked;
      bookings := (bookings Test.booked ++ [Demo.massage_doc])%list |},
   respond 201 (BookingCreated "Booking created successfully!"
                               Demo.massage_doc)).
Proof.
  refine (@post_bookings_created Test.platform Test.booked Test.alice_header
            Demo.massage 9000 23%N Test.alice_claims
            "2024-01-03" "11:00" "massage"
            alice_authenticated eq_refl _ eq_refl _ eq_refl _); discriminate.
Defined.

Lemma post_bookings_blank_field_witness :
  @post_bookings Test.platform Test.booked Test.alice_header Demo.no_time
    9000 23%N = (Test.booked, internal_error).
Proof.
  exact (@post_bookings_blank_field Test.platform Test.booked
           Test.alice_header Demo.no_time 9000 23%N Test.alice_claims
           alice_authenticated
           (or_intror (or_introl (or_intror eq_refl)))).
Defined.

Lemma post_bookings_ignores_other_fields_witness :
  @post_bookings Test.platform Test.booked Test.alice_header
    (("userId", "9") :: Demo.massage) 9000 23%N =
  @post_bookings Test.platform Test.booked Test.alice_header
    Demo.massage 9000 23%N.
Proof.
  refine (@post_bookings_ignores_other_fields Test.platform Test.booked
            Test.alice_header Demo.massage 9000 23%N "userId" "9" _ _ _);
    discriminate.
Defined.

Lemma alice_books_massage :
  @post_bookings Test.platform Test.booked Test.alice_header Demo.massage
    9000 23%N =
  ({| users := users Test.booked;
      bookings := (bookings Test.booked ++ [Demo.massage_doc])%list |},
   respond 201 (BookingCreated "Booking created successfully!"
                               Demo.massage_doc)).
Proof. vm_compute. reflexivity. Qed.

Lemma post_then_get_witness :
  let db1 := {| users := users Test.booked;
                bookings := (bookings Test.booked ++ [Demo.massage_doc])%list |} in
  (exists user,
     @authenticateToken Test.platform Test.alice_header 9000 = inr user /\
     Booking.userId Demo.massage_doc = Jwt.userId user) /\
  exists listed listed',
    @get_bookings Test.platform Test.booked Demo.carol_header 9000
      = (Test.booked, ok (Bookings listed)) /\
    @get_bookings Test.platform db1 Demo.carol_header 9000
      = (db1, ok (Bookings listed')) /\
    (Booking.userId Demo.massage_doc = Jwt.userId Demo.carol_claims ->
       Permutation (Demo.massage_doc :: listed) listed') /\
    (Booking.userId Demo.massage_doc <> Jwt.userId Demo.carol_claims ->
       listed' = listed).
Proof.
  exact (@post_then_get Test.platform Test.booked _ Test.alice_header
           Demo.massage 9000 23%N "Booking created successfully!"
           Demo.massage_doc Demo.carol_header 9000 Demo.carol_claims
           alice_books_massage carol_authenticated).
Defined.

Lemma signup_empty_field_witness :
  @signup Test.platform Test.booked
    [("accountName", ""); ("email", "e@x.com"); ("password", "pw5")]
    "salt-5" 11%N = (Test.booked, internal_error).
Proof.
  refine (@signup_empty_field Test.platform Test.booked
            [("accountName", ""); ("email", "e@x.com"); ("password", "pw5")]
            "salt-5" 11%N (or_introl eq_refl) _).
  vm_compute. reflexivity.
Defined.

Lemma signin_without_password_witness :
  @signin Test.platform Test.booked [("email", "a@x.com")] 5000 =
    match User.findOne (JS.field "email" [("email", "a@x.com")])
            (users Test.booked) with
    | None => (Test.booked, respond 401 (Message "Invalid credentials."))
    | Some account => (Test.booked, internal_error)
    end.
Proof.
  exact (@signin_without_password Test.platform Test.booked
           [("email", "a@x.com")] 5000 eq_refl).
Defined.

Lemma booked_without_dave :
  User.findOne (Some "d@x.com") (users Test.booked) = None.
Proof. vm_compute. reflexivity. Qed.

Lemma signup_then_signin_witness :
  let db1 := fst (@signup Test.platform Test.booked Demo.dave "salt-4" 10%N) in
  snd (@signup Test.platform Test.booked Demo.dave "salt-4" 10%N) =
    respond 201 (AccountCreated "Account created successfully!" 10%N) /\
  exists token claims,
    @signin Test.platform db1 Demo.dave_signin 7000
      = (db1, ok (SignedIn "Sign-in successful!" token)) /\
    Jwt.verify (@hs256 Test.platform) (@parse Test.platform) token
      (@JWT_SECRET Test.platform) 7000 = JS.Ok claims /\
    Jwt.userId claims = 10%N /\
    Jwt.email claims = "d@x.com" /\
    Jwt.accountName claims = "Dave".
Proof.
  refine (@signup_then_signin Test.platform Test.booked Demo.dave
            Demo.dave_signin "salt-4" 10%N 7000 "Dave" "d@x.com" "pw4"
            test_codec_ok test_secret eq_refl _ eq_refl _ eq_refl
            booked_without_dave eq_refl eq_refl); discriminate.
Defined.

Lemma alice_signs_in :
  @signin Test.platform Test.booked
    [("email", "a@x.com"); ("password", "pw1")] 5000
  = (Test.booked, ok (SignedIn "Sign-in successful!" Test.alice_token)).
Proof. vm_compute. reflexivity. Qed.

Lemma alice_token_without_space : JS.mem space Test.alice_token = false.
Proof. vm_compute. reflexivity. Qed.

Lemma issued_token_opens_routes_witness :
  exists account claims,
    User.findOne (JS.field "email" [("email", "a@x.com"); ("password", "pw1")])
      (users Test.booked) = Some account /\
    @authenticateToken Test.platform (Some ("Bearer " ++ Test.alice_token))
      9000 = inr claims /\
    Jwt.userId claims = User._id account /\
    Jwt.email claims = User.email account /\
    Jwt.accountName claims = User.accountName account /\
    forall db2,
      @fetch_account_name Test.platform db2
        (Some ("Bearer " ++ Test.alice_token)) 9000 =
        (db2, ok (AccountName (User.accountName account))).
Proof.
  refine (@issued_token_opens_routes Test.platform Test.booked Test.booked
            [("email", "a@x.com"); ("password", "pw1")] 5000 9000
            "Sign-in successful!" Test.alice_token test_codec_ok
            alice_signs_in alice_token_without_space _).
  vm_compute. reflexivity.
Defined.

Lemma issued_token_expires_at_routes_witness :
  @get_bookings Test.platform Test.booked
    (Some ("Bearer " ++ Test.alice_token)) 3605000
  = (Test.booked, forbidden).
Proof.
  refine (@issued_token_expires_at_routes Test.platform Test.booked
            Test.booked [("email", "a@x.com"); ("password", "pw1")] 5000
            3605000 "Sign-in successful!" Test.alice_token test_codec_ok
            alice_signs_in alice_token_without_space _ Test.booked _).
  vm_compute. discriminate.
Defined.

Lemma signup_twice_conflict_witness :
  let db1 :=
    fst (@serve_all Test.platform
           (fst (@signup Test.platform Test.booked Demo.dave "salt-4" 10%N))
           [PostSignin Demo.dave_signin 7000;
            PostBookings Test.alice_header Demo.massage 9000 23%N]) in
  @signup Test.platform db1 [("email", "d@x.com")] "salt-6" 12%N =
    (db1, respond 409 (Message "User already exists with this email.")).
Proof.
  exact (@signup_twice_conflict Test.platform Test.booked Demo.dave
           [("email", "d@x.com")] "salt-4" "salt-6" 10%N 12%N
           [PostSignin Demo.dave_signin 7000;
            PostBookings Test.alice_header Demo.massage 9000 23%N]
           eq_refl eq_refl).
Defined.

Lemma no_secret_no_session_witness :
  @signin Demo.without_secret Test.booked
    [("email", "a@x.com"); ("password", "pw1")] 5000
  = (Test.booked, internal_error) /\
  (@authenticateToken Demo.without_secret Test.alice_header 9000
     = inl unauthorized \/
   @authenticateToken Demo.without_secret Test.alice_header 9000
     = inl forbidden).
Proof.
  destruct (@no_secret_no_session Demo.without_secret Test.booked
              [("email", "a@x.com"); ("password", "pw1")] 5000
              Test.alice_account "pw1" Test.alice_header eq_refl)
    as [Hsignin Hauth].
  split; [|exact Hauth].
  apply Hsignin; vm_compute; reflexivity.
Defined.

Lemma booked_without_carol b :
  In b (bookings Test.booked) ->
  Booking.userId b <> Jwt.userId Demo.carol_claims.
Proof.
  vm_compute. intros [<- | [<- | []]]; discriminate.
Qed.

Lemma get_bookings_none_witness :
  @get_bookings Test.platform Test.booked Demo.carol_header 9000
  = (Test.booked, ok (Bookings [])).
Proof.
  exact (@get_bookings_none Test.platform Test.booked Demo.carol_header 9000
           Demo.carol_claims carol_authenticated booked_without_carol).
Defined.
